(** * LeadGen: the lead-generation endpoint of [src/main.py]

    A shallow embedding of the three steps of the endpoint
    [POST /generate-leads] (query translator, lead fetcher, lead store) and of
    the endpoint itself, followed by the properties of the specification.

    Python values are embedded as the inductive [pyval]; the interpreter's
    exceptions as [exn]; the code runs in a state-and-exception monad over a
    [world] that holds the committed rows of table [leads], the database
    sessions and the trace of outbound calls.  The two vendor services and the
    database engine are the fields of a record [services]: the theorems
    quantify over every such record.

    Modelling choices.  Standard output is taken to be UTF-8, so a [print]
    raises exactly when the text holds a surrogate code point.  The [print]
    of the translator's result, which sits inside its [try], is modelled.
    The other calls of [print] are taken to go through and are left out: one
    prints an integer, three print an exception, and the one of the endpoint
    prints the field of the request that the framework has validated.  Of the
    session API, [commit] is the call that talks to the database and may
    raise; [add] only registers an object, and [rollback] and [close] are
    taken not to raise. *)

From Stdlib Require Import List ZArith NArith Bool String Ascii Lia.
From Stdlib Require Import Floats.SpecFloat.
Import ListNotations.

Set Warnings "-register-all".
Local Open Scope Z_scope.

(* ================================================================= *)
(** ** Python strings *)

(** A Python [str] is a sequence of Unicode code points. *)
Module PyStr.

Definition str : Type := list N.

(** An ASCII literal of the source as a [str]. *)
Fixpoint lit (s : string) : str :=
  match s with
  | EmptyString => []
  | String a s' => N_of_ascii a :: lit s'
  end.

(** The characters that a Rocq literal cannot hold verbatim. *)
Definition nl : str := [10%N].
Definition dquote : str := [34%N].

Fixpoint eqb (a b : str) : bool :=
  match a, b with
  | [], [] => true
  | x :: a', y :: b' => N.eqb x y && eqb a' b'
  | _, _ => false
  end.

Fixpoint startswith (p s : str) : bool :=
  match p, s with
  | [], _ => true
  | _ :: _, [] => false
  | x :: p', y :: s' => N.eqb x y && startswith p' s'
  end.

(** [contains p s] is Python's [p in s] on two strings. *)
Fixpoint contains (p s : str) : bool :=
  startswith p s ||
  match s with
  | [] => false
  | _ :: s' => contains p s'
  end.

(** [str.isspace] on one character: the code points CPython treats as
    whitespace, which are the ones [str.strip()] removes. *)
Definition isspace (c : N) : bool :=
  ((9 <=? c) && (c <=? 13) ||
   (28 <=? c) && (c <=? 32) ||
   (c =? 133) || (c =? 160) || (c =? 5760) ||
   (8192 <=? c) && (c <=? 8202) ||
   (c =? 8232) || (c =? 8233) || (c =? 8239) || (c =? 8287) ||
   (c =? 12288))%N.

Fixpoint lstrip (s : str) : str :=
  match s with
  | [] => []
  | c :: s' => if isspace c then lstrip s' else s
  end.

Definition rstrip (s : str) : str := rev (lstrip (rev s)).

(** [s.strip()] with no argument. *)
Definition strip (s : str) : str := rstrip (lstrip s).

(** The strings UTF-8 can encode: all but those that hold a surrogate code
    point (U+D800 to U+DFFF). *)
Definition is_surrogate (c : N) : bool := ((55296 <=? c) && (c <=? 57343))%N.

Definition utf8_encodable (s : str) : bool :=
  forallb (fun c => negb (is_surrogate c)) s.

End PyStr.
Import PyStr.

(* ================================================================= *)
(** ** Python values and exceptions *)

(** The values that [json] decoding produces and that the code builds:
    [None], booleans, integers, floats, strings, lists and dicts with string
    keys.  A dict is kept as its items in insertion order; its keys are
    distinct, and [dict_get] reads the first binding of a key. *)
Inductive pyval : Type :=
| PNone
| PBool (b : bool)
| PInt (z : Z)
| PFloat (f : spec_float)
| PStr (s : str)
| PList (l : list pyval)
| PDict (d : list (str * pyval)).

Inductive exn : Type :=
| HTTPException (status_code : Z) (detail : str)
| AttributeError
| TypeError
| KeyError
| IndexError
| UnicodeEncodeError
| LibraryError (origin : str).

Inductive result (A : Type) : Type :=
| Ok (a : A)
| Raise (e : exn).
Arguments Ok {A} a.
Arguments Raise {A} e.

Fixpoint dict_get (d : list (str * pyval)) (k : str) : option pyval :=
  match d with
  | [] => None
  | (k', v) :: d' => if PyStr.eqb k' k then Some v else dict_get d' k
  end.

(** [x.get(k, dflt)]: only a dict has the method. *)
Definition py_get (x : pyval) (k : str) (dflt : pyval) : result pyval :=
  match x with
  | PDict d => Ok (match dict_get d k with Some v => v | None => dflt end)
  | _ => Raise AttributeError
  end.

(** Truth value of an object, as [not x] and [if x] test it. *)
Definition py_truthy (x : pyval) : bool :=
  match x with
  | PNone => false
  | PBool b => b
  | PInt z => negb (z =? 0)
  | PFloat (S754_zero _) => false
  | PFloat _ => true
  | PStr s => match s with [] => false | _ => true end
  | PList l => match l with [] => false | _ => true end
  | PDict d => match d with [] => false | _ => true end
  end.

(** [x[0]].  A decoded dict has string keys only, so the integer key [0] is
    never found in it. *)
Definition py_item0 (x : pyval) : result pyval :=
  match x with
  | PList (v :: _) => Ok v
  | PList [] => Raise IndexError
  | PStr (c :: _) => Ok (PStr [c])
  | PStr [] => Raise IndexError
  | PDict _ => Raise KeyError
  | _ => Raise TypeError
  end.

(** The elements a [for] loop visits: the items of a list, the characters of
    a string, the keys of a dict. *)
Definition py_iter (x : pyval) : result (list pyval) :=
  match x with
  | PList l => Ok l
  | PStr s => Ok (map (fun c => PStr [c]) s)
  | PDict d => Ok (map (fun kv => PStr (fst kv)) d)
  | _ => Raise TypeError
  end.

(** [PStr p == v] for a string [p]. *)
Definition py_eq_str (p : str) (v : pyval) : bool :=
  match v with
  | PStr s => PyStr.eqb p s
  | _ => false
  end.

(** [p in x] for a string [p]: substring of a string, element of a list,
    key of a dict. *)
Definition py_str_in (p : str) (x : pyval) : result bool :=
  match x with
  | PStr s => Ok (contains p s)
  | PList l => Ok (existsb (py_eq_str p) l)
  | PDict d => Ok (existsb (fun kv => PyStr.eqb p (fst kv)) d)
  | _ => Raise TypeError
  end.

Definition isinstance_list (x : pyval) : bool :=
  match x with
  | PList _ => true
  | _ => false
  end.

(** [len(x)]. *)
Definition py_len (x : pyval) : result Z :=
  match x with
  | PList l => Ok (Z.of_nat (List.length l))
  | PStr s => Ok (Z.of_nat (List.length s))
  | PDict d => Ok (Z.of_nat (List.length d))
  | _ => Raise TypeError
  end.

(** Pure code that may raise runs in [result]. *)
Definition rbind {A B : Type} (r : result A) (k : A -> result B) : result B :=
  match r with
  | Ok a => k a
  | Raise e => Raise e
  end.

Notation "'let*' x ':=' r 'in' k" := (rbind r (fun x => k))
  (at level 10, x name, r at level 100, k at level 200).

(* ================================================================= *)
(** ** The world: table [leads], sessions, outbound calls *)

(** A row of table [leads] (class [Lead]).  Column [id] is assigned by the
    database and is not part of what the code writes. *)
Record Lead : Type := mkLead {
  name : pyval;
  email : pyval;
  title : pyval;
  company : pyval;
  location : pyval
}.

(** A session of [SessionLocal]: the objects added and not yet flushed, the
    rows a flush has inserted inside the open transaction, and whether
    [close()] has released it. *)
Record session : Type := mkSession {
  new_objects : list Lead;
  in_transaction : list Lead;
  closed : bool
}.

Inductive event : Type :=
| GenerateContent (model contents : str)
| RequestsPost (url : str) (payload : pyval).

Record world : Type := mkWorld {
  leads_table : list Lead;
  sessions : list session;
  trace : list event
}.

(** What the vendors answer. [text] of a model response is optional in the
    client library; [json] of an HTTP response raises on a body that is not
    JSON. *)
Record GenerateContentResponse : Type := { text : option str }.

Record Response : Type := { status_code : Z; json : result pyval }.

(** Everything outside the program: the configured token, the two services,
    and the database engine, which decides whether an INSERT succeeds (given
    the committed rows and the rows already inserted in the transaction) and
    whether a COMMIT succeeds. *)
Record services : Type := {
  APIFY_TOKEN : str;
  generate_content : str -> str -> result GenerateContentResponse;
  requests_post : str -> pyval -> result Response;
  insert_ok : list Lead -> list Lead -> Lead -> bool;
  commit_ok : list Lead -> list Lead -> bool
}.

(* ================================================================= *)
(** ** The state-and-exception monad *)

Definition M (A : Type) : Type := world -> result A * world.

Definition ret {A : Type} (a : A) : M A := fun w => (Ok a, w).

Definition raise {A : Type} (e : exn) : M A := fun w => (Raise e, w).

Definition lift {A : Type} (r : result A) : M A := fun w => (r, w).

Definition bind {A B : Type} (m : M A) (k : A -> M B) : M B :=
  fun w =>
    match m w with
    | (Ok a, w') => k a w'
    | (Raise e, w') => (Raise e, w')
    end.

Notation "x <- m ;; k" := (bind m (fun x => k))
  (at level 61, m at next level, right associativity).
Notation "m ;; k" := (bind m (fun _ => k))
  (at level 61, right associativity).

(** [try: body except Exception as e: handler e]. *)
Definition try_except {A : Type} (body : M A) (handler : exn -> M A) : M A :=
  fun w =>
    match body w with
    | (Ok a, w') => (Ok a, w')
    | (Raise e, w') => handler e w'
    end.

(** [try: body finally: final].  The outcome of [body] stands unless [final]
    itself raises. *)
Definition try_finally {A : Type} (body : M A) (final : M unit) : M A :=
  fun w =>
    match body w with
    | (r, w') =>
        match final w' with
        | (Ok _, w'') => (r, w'')
        | (Raise e, w'') => (Raise e, w'')
        end
    end.

Fixpoint for_each {A : Type} (xs : list A) (body : A -> M unit) : M unit :=
  match xs with
  | [] => ret tt
  | x :: xs' => body x ;; for_each xs' body
  end.

Definition log (ev : event) : M unit :=
  fun w => (Ok tt, mkWorld (leads_table w) (sessions w) (trace w ++ [ev])).

(** [print(label, value)] for a string [value].  Standard output is UTF-8:
    the write raises [UnicodeEncodeError] when the value holds a surrogate
    code point, and otherwise goes through.  What is written is not kept. *)
Definition print (label value : str) : M unit :=
  if utf8_encodable value then ret tt else raise UnicodeEncodeError.

(* ================================================================= *)
(** ** The program *)

Definition list_update {A : Type} (n : nat) (f : A -> A) (l : list A) : list A :=
  firstn n l ++
  match skipn n l with
  | [] => []
  | x :: rest => f x :: rest
  end.

Definition update_session (db : nat) (f : session -> session) : M unit :=
  fun w =>
    (Ok tt, mkWorld (leads_table w) (list_update db f (sessions w)) (trace w)).

Section Program.

Variable sv : services.

(** *** Outbound calls *)

(** [client.models.generate_content(model=..., contents=...)]. *)
Definition client_generate_content (model contents : str)
  : M GenerateContentResponse :=
  log (GenerateContent model contents) ;;
  lift (generate_content sv model contents).

(** [requests.post(url, json=payload)]. *)
Definition post (url : str) (payload : pyval) : M Response :=
  log (RequestsPost url payload) ;;
  lift (requests_post sv url payload).

(** *** The session API *)

(** [SessionLocal()]: a new session, named by its index. *)
Definition SessionLocal : M nat :=
  fun w =>
    (Ok (List.length (sessions w)),
     mkWorld (leads_table w) (sessions w ++ [mkSession [] [] false]) (trace w)).

(** [db.add(obj)] registers the object; nothing is sent to the database. *)
Definition db_add (db : nat) (obj : Lead) : M unit :=
  update_session db
    (fun s => mkSession (new_objects s ++ [obj]) (in_transaction s) (closed s)).

(** A flush inserts the new objects in order inside the transaction and
    stops at the first INSERT the database refuses.  It returns the rows of
    the transaction, the objects left, and whether every INSERT went
    through. *)
Fixpoint flush (table txn new : list Lead) : list Lead * list Lead * bool :=
  match new with
  | [] => (txn, [], true)
  | obj :: new' =>
      if insert_ok sv table txn obj
      then flush table (txn ++ [obj]) new'
      else (txn, new, false)
  end.

(** [db.commit()]: flush, then COMMIT, which makes the rows of the
    transaction rows of the table.  A refused INSERT or COMMIT raises and
    leaves the transaction as it is. *)
Definition db_commit (db : nat) : M unit :=
  fun w =>
    match nth_error (sessions w) db with
    | None => (Raise (LibraryError (lit "sqlalchemy")), w)
    | Some s =>
        match flush (leads_table w) (in_transaction s) (new_objects s) with
        | (txn, rest, flushed) =>
            if flushed && commit_ok sv (leads_table w) txn
            then (Ok tt,
                  mkWorld (leads_table w ++ txn)
                    (list_update db (fun s => mkSession [] [] (closed s))
                       (sessions w))
                    (trace w))
            else (Raise (LibraryError (lit "sqlalchemy")),
                  mkWorld (leads_table w)
                    (list_update db (fun s => mkSession rest txn (closed s))
                       (sessions w))
                    (trace w))
        end
    end.

(** [db.rollback()] discards the transaction and the pending objects; it
    does not raise. *)
Definition db_rollback (db : nat) : M unit :=
  update_session db (fun s => mkSession [] [] (closed s)).

(** [db.close()] releases the session; an open transaction is discarded; it
    does not raise. *)
Definition db_close (db : nat) : M unit :=
  update_session db (fun _ => mkSession [] [] true).

(** *** Step 1 - the query translator *)

(** The f-string [prompt]: the text before [{query}], the query, the text
    after it. *)
Definition template_head : str :=
  nl ++
  lit "    Convert this query into a Google search query " ++ nl ++
  lit "    to find LinkedIn profiles." ++ nl ++
  nl ++
  lit "    Only return the search query string." ++ nl ++
  lit "    No explanation." ++ nl ++
  nl ++
  lit "    Example:" ++ nl ++
  lit "    Input: CEO in Mumbai" ++ nl ++
  lit "    Output: site:linkedin.com/in " ++
    dquote ++ lit "CEO" ++ dquote ++ lit " " ++
    dquote ++ lit "Mumbai" ++ dquote ++ nl ++
  nl ++
  lit "    Query: ".

Definition template_tail : str := nl ++ lit "    ".

Definition prompt (query : str) : str :=
  template_head ++ query ++ template_tail.

Definition gemini_model : str := lit "gemini-2.5-flash".

Definition convert_query_to_google_query (query : str) : M str :=
  try_except
    (response <- client_generate_content gemini_model (prompt query) ;;
     match text response with
     | Some t =>
         let search_query := strip t in
         print (lit "Generated Google query:") search_query ;;
         ret search_query
     | None => raise AttributeError
     end)
    (fun _ => raise (HTTPException 500 (lit "Gemini failed"))).

(** *** Step 2 - the lead fetcher *)

(** The dict appended for one matching item. *)
Definition lead_of (item personal_info link : pyval) : result pyval :=
  let* name := py_get item (lit "title") PNone in
  let* title := py_get personal_info (lit "jobTitle") PNone in
  let* company := py_get personal_info (lit "companyName") PNone in
  let* location := py_get personal_info (lit "location") PNone in
  Ok (PDict [ (lit "name", name);
              (lit "title", title);
              (lit "email", PNone);
              (lit "organization", PDict [ (lit "name", company) ]);
              (lit "location", location);
              (lit "linkedin_url", link) ]).

(** The body of [for item in organic_results], with the list [leads] built
    so far. *)
Fixpoint fetch_loop (items leads : list pyval) : result (list pyval) :=
  match items with
  | [] => Ok leads
  | item :: rest =>
      let* link := py_get item (lit "url") (PStr []) in
      let* hit := py_str_in (lit "linkedin.com/in") link in
      if (hit : bool) then
        let* personal_info := py_get item (lit "personalInfo") (PDict []) in
        let* lead := lead_of item personal_info link in
        fetch_loop rest (leads ++ [lead])
      else fetch_loop rest leads
  end.

(** The locals [url] and [payload] of [fetch_leads]. *)
Definition apify_url : str :=
  lit "https://api.apify.com/v2/acts/apify~google-search-scraper/run-sync-get-dataset-items?token="
  ++ APIFY_TOKEN sv.

Definition apify_payload (search_query : str) : pyval :=
  PDict [ (lit "queries", PStr search_query);
          (lit "maxPagesPerQuery", PInt 1) ].

Definition fetch_leads (search_query : str) : M pyval :=
  let url := apify_url in
  let payload := apify_payload search_query in
  try_except
    (response <- post url payload ;;
     if negb (status_code response =? 200) && negb (status_code response =? 201)
     then raise (HTTPException 500 (lit "Apify API failed"))
     else
       results <- lift (json response) ;;
       if negb (py_truthy results) then ret (PList [])
       else
         first <- lift (py_item0 results) ;;
         organic_results <- lift (py_get first (lit "organicResults") (PList [])) ;;
         items <- lift (py_iter organic_results) ;;
         leads <- lift (fetch_loop items []) ;;
         ret (PList leads))
    (fun _ => raise (HTTPException 500 (lit "Apify request failed"))).

(** *** Step 3 - the lead store *)

(** [Lead(name=..., email=..., title=..., company=..., location=...)] for one
    element of [leads]. *)
Definition new_lead (lead : pyval) : result Lead :=
  let* name := py_get lead (lit "name") PNone in
  let* email := py_get lead (lit "email") PNone in
  let* title := py_get lead (lit "title") PNone in
  let* organization := py_get lead (lit "organization") (PDict []) in
  let* company := py_get organization (lit "name") PNone in
  let* organization' := py_get lead (lit "organization") (PDict []) in
  let* location := py_get organization' (lit "location") PNone in
  Ok (mkLead name email title company location).

Definition store_leads (leads : pyval) : M unit :=
  db <- SessionLocal ;;
  try_finally
    (try_except
       (items <- lift (py_iter leads) ;;
        for_each items
          (fun lead => obj <- lift (new_lead lead) ;; db_add db obj) ;;
        db_commit db)
       (fun _ =>
          db_rollback db ;;
          raise (HTTPException 500 (lit "Database error"))))
    (db_close db).

(** *** The endpoint *)

Definition generate_leads (query : str) : M pyval :=
  search_query <- convert_query_to_google_query query ;;
  leads <- fetch_leads search_query ;;
  if negb (isinstance_list leads)
  then raise (HTTPException 500 (lit "Invalid format"))
  else
    store_leads leads ;;
    leads_found <- lift (py_len leads) ;;
    ret (PDict [ (lit "google_query", PStr search_query);
                 (lit "leads_found", PInt leads_found) ]).

End Program.

(** The status line the framework answers with: 200 for a returned body, the
    status of an [HTTPException], 500 for any other exception. *)
Definition http_status (r : result pyval) : Z :=
  match r with
  | Ok _ => 200
  | Raise (HTTPException code _) => code
  | Raise _ => 500
  end.

(* ================================================================= *)
(** ** A concrete run: the example of the specification *)

Module Scenario.

(** The query the model is expected to produce for "CEO in Mumbai". *)
Definition google_query : str :=
  lit "site:linkedin.com/in " ++ dquote ++ lit "CEO" ++ dquote ++
  lit " " ++ dquote ++ lit "Mumbai" ++ dquote.

Definition jane : pyval :=
  PDict [ (lit "title", PStr (lit "Jane Doe - CEO - Acme"));
          (lit "url", PStr (lit "https://www.linkedin.com/in/jane"));
          (lit "personalInfo",
           PDict [ (lit "jobTitle", PStr (lit "CEO"));
                   (lit "companyName", PStr (lit "Acme"));
                   (lit "location", PStr (lit "Mumbai")) ]) ].

Definition company_page : pyval :=
  PDict [ (lit "title", PStr (lit "Acme | LinkedIn"));
          (lit "url", PStr (lit "https://www.linkedin.com/company/acme")) ].

(** A profile result whose [personalInfo] is JSON [null]. *)
Definition anonymous : pyval :=
  PDict [ (lit "title", PStr (lit "LinkedIn Member"));
          (lit "url", PStr (lit "https://www.linkedin.com/in/member"));
          (lit "personalInfo", PNone) ].

(** The JSON document of the scraping service: one result set. *)
Definition result_set (organic_results : list pyval) : list (str * pyval) :=
  [ (lit "searchQuery", PStr google_query);
    (lit "organicResults", PList organic_results) ].

Definition dataset (organic_results : list pyval) : pyval :=
  PList [ PDict (result_set organic_results) ].

(** Services that answer every call the same way; the database accepts the
    rows [accept] holds for. *)
Definition serving (answer : result GenerateContentResponse)
    (response : result Response) (accept : Lead -> bool) : services :=
  {| APIFY_TOKEN := lit "apify_api_token";
     generate_content := fun _ _ => answer;
     requests_post := fun _ _ => response;
     insert_ok := fun _ _ obj => accept obj;
     commit_ok := fun _ _ => true |}.

Definition model_says (t : str) : result GenerateContentResponse :=
  Ok {| text := Some t |}.

Definition scraper_says (status : Z) (document : pyval) : result Response :=
  Ok {| status_code := status; json := Ok document |}.

(** The model answers the expected query followed by a newline; the scraper
    answers 200 with the given results; the database accepts every row. *)
Definition happy (organic_results : list pyval) : services :=
  serving (model_says (google_query ++ nl))
    (scraper_says 200 (dataset organic_results)) (fun _ => true).

(** The scraper answers 503, with a document all the same. *)
Definition scraper_down : services :=
  serving (model_says (google_query ++ nl))
    (scraper_says 503 (dataset [jane])) (fun _ => true).

(** The model answers one code point, the lone surrogate U+D800. *)
Definition surrogate_answer : services :=
  serving (model_says [55296%N])
    (scraper_says 200 (dataset [jane])) (fun _ => true).

Definition empty_world : world := mkWorld [] [] [].

(** Two records as the fetcher builds them, the second without a title, and
    a database that refuses a row whose title is null. *)
Definition jane_lead : pyval :=
  PDict [ (lit "name", PStr (lit "Jane Doe - CEO - Acme"));
          (lit "title", PStr (lit "CEO"));
          (lit "email", PNone);
          (lit "organization", PDict [ (lit "name", PStr (lit "Acme")) ]);
          (lit "location", PStr (lit "Mumbai"));
          (lit "linkedin_url", PStr (lit "https://www.linkedin.com/in/jane")) ].

Definition member_lead : pyval :=
  PDict [ (lit "name", PStr (lit "LinkedIn Member"));
          (lit "title", PNone);
          (lit "email", PNone);
          (lit "organization", PDict [ (lit "name", PNone) ]);
          (lit "location", PNone);
          (lit "linkedin_url", PStr (lit "https://www.linkedin.com/in/member")) ].

Definition jane_row : Lead :=
  mkLead (PStr (lit "Jane Doe - CEO - Acme")) PNone (PStr (lit "CEO"))
    (PStr (lit "Acme")) PNone.

Definition member_row : Lead :=
  mkLead (PStr (lit "LinkedIn Member")) PNone PNone PNone PNone.

Definition has_title (obj : Lead) : bool :=
  match title obj with
  | PNone => false
  | _ => true
  end.

Definition strict (organic_results : list pyval) : services :=
  serving (model_says (google_query ++ nl))
    (scraper_says 200 (dataset organic_results)) has_title.

Definition ceo_in_mumbai : str := lit "CEO in Mumbai".

End Scenario.

(* ================================================================= *)
(** ** Facts about strings *)

Module PyStrFacts.

Lemma eqb_eq (a b : str) : PyStr.eqb a b = true <-> a = b.
Proof.
  revert b; induction a as [|x a IH]; intros [|y b]; simpl;
    try (split; congruence).
  rewrite andb_true_iff, N.eqb_eq, IH.
  split; [intros [-> ->]; reflexivity | intros [= -> ->]; auto].
Qed.

Lemma eqb_refl (a : str) : PyStr.eqb a a = true.
Proof. apply eqb_eq; reflexivity. Qed.

Lemma startswith_app (p s : str) :
  startswith p s = true <-> exists b, s = p ++ b.
Proof.
  revert s; induction p as [|x p IH]; intros s; simpl.
  - split; [intros _; exists s; reflexivity | reflexivity].
  - destruct s as [|y s].
    + split; [discriminate | intros [b Hb]; discriminate].
    + rewrite andb_true_iff, N.eqb_eq, IH.
      split.
      * intros [-> [b ->]]; exists b; reflexivity.
      * intros [b [= -> ->]]; split; [reflexivity | exists b; reflexivity].
Qed.

(** [p in s] holds exactly when [p] occurs in [s] as a block. *)
Lemma contains_app (p s : str) :
  contains p s = true <-> exists a b, s = a ++ p ++ b.
Proof.
  induction s as [|y s IH].
  - simpl. rewrite orb_false_r, startswith_app.
    split.
    + intros [b Hb]; exists [], b; exact Hb.
    + intros [a [b Hab]].
      destruct a; [exists b; exact Hab | discriminate].
  - cbn [contains]. rewrite orb_true_iff, startswith_app, IH.
    split.
    + intros [[b Hb] | [a [b Hab]]].
      * exists [], b; exact Hb.
      * exists (y :: a), b; simpl; rewrite Hab; reflexivity.
    + intros [[|x a] [b Hab]].
      * left; exists b; exact Hab.
      * right; injection Hab as _ Hab; exists a, b; exact Hab.
Qed.

Definition starts_clean (s : str) : Prop :=
  match s with
  | [] => True
  | c :: _ => isspace c = false
  end.

Lemma lstrip_split (s : str) :
  exists a, s = a ++ lstrip s /\ forallb isspace a = true.
Proof.
  induction s as [|c s [a [Ha Hws]]]; simpl.
  - exists []; auto.
  - destruct (isspace c) eqn:Hc.
    + exists (c :: a); simpl; rewrite Hc, Hws, <- Ha; auto.
    + exists []; auto.
Qed.

Lemma lstrip_clean (s : str) : starts_clean (lstrip s).
Proof.
  induction s as [|c s IH]; simpl; [exact I|].
  destruct (isspace c) eqn:Hc; [exact IH | exact Hc].
Qed.

Lemma lstrip_of_clean (s : str) : starts_clean s -> lstrip s = s.
Proof. destruct s as [|c s]; simpl; [reflexivity | intros ->; reflexivity]. Qed.

Lemma forallb_rev {A : Type} (f : A -> bool) (l : list A) :
  forallb f (rev l) = forallb f l.
Proof.
  induction l as [|x l IH]; simpl; [reflexivity|].
  rewrite forallb_app, IH; simpl; rewrite andb_true_r, andb_comm; reflexivity.
Qed.

Lemma rstrip_split (s : str) :
  exists b, s = rstrip s ++ b /\ forallb isspace b = true.
Proof.
  unfold rstrip.
  destruct (lstrip_split (rev s)) as [a [Ha Hws]].
  exists (rev a); split.
  - rewrite <- rev_app_distr, <- Ha, rev_involutive; reflexivity.
  - rewrite forallb_rev; exact Hws.
Qed.

Lemma rstrip_ends_clean (s : str) : starts_clean (rev (rstrip s)).
Proof. unfold rstrip; rewrite rev_involutive; apply lstrip_clean. Qed.

Lemma rstrip_keeps_start (s : str) : starts_clean s -> starts_clean (rstrip s).
Proof.
  intros Hs.
  destruct (rstrip_split s) as [b [Hb _]].
  destruct (rstrip s) as [|c r]; [exact I|].
  rewrite Hb in Hs; exact Hs.
Qed.

(** [strip] removes a block of whitespace at each end, and nothing else:
    what is left neither starts nor ends with whitespace. *)
Lemma strip_split (t : str) :
  exists a b,
    t = a ++ strip t ++ b /\
    forallb isspace a = true /\ forallb isspace b = true /\
    starts_clean (strip t) /\ starts_clean (rev (strip t)).
Proof.
  unfold strip.
  destruct (lstrip_split t) as [a [Ha Hwa]].
  destruct (rstrip_split (lstrip t)) as [b [Hb Hwb]].
  exists a, b; repeat split; auto.
  - rewrite <- Hb; exact Ha.
  - apply rstrip_keeps_start, lstrip_clean.
  - apply rstrip_ends_clean.
Qed.

(** A string with clean ends is left as it is. *)
Lemma strip_of_clean (t : str) :
  starts_clean t -> starts_clean (rev t) -> strip t = t.
Proof.
  intros H1 H2; unfold strip, rstrip.
  rewrite (lstrip_of_clean t H1), (lstrip_of_clean _ H2).
  apply rev_involutive.
Qed.

Example isspace_samples :
  map isspace [9; 32; 65; 160; 8203; 12288]%N
  = [true; true; false; true; false; true].
Proof. reflexivity. Qed.

Example strip_sample :
  strip (nl ++ lit "  site:linkedin.com/in  x " ++ nl)
  = lit "site:linkedin.com/in  x".
Proof. reflexivity. Qed.

Example contains_samples :
  contains (lit "linkedin.com/in") (lit "https://www.linkedin.com/in/jane")
    = true /\
  contains (lit "linkedin.com/in") (lit "https://www.linkedin.com/company/a")
    = false.
Proof. split; reflexivity. Qed.

End PyStrFacts.

(* ================================================================= *)
(** ** Running the monad *)

Ltac run_monad :=
  cbv beta delta
    [bind ret raise lift try_except try_finally log print
     client_generate_content post update_session
     SessionLocal db_add db_rollback db_close] in *;
  cbn beta iota zeta in *.

(** Case analysis on the scrutinee of the innermost stuck [match]. *)
Ltac case_scrutinee :=
  match goal with
  | |- context [match ?x with _ => _ end] =>
      lazymatch x with
      | context [match _ with _ => _ end] => fail
      | _ => destruct x eqn:?
      end
  end.

(* ================================================================= *)
(** ** Step 1: the query translator *)

Section Translator.

Variable sv : services.

(** The translator touches neither the table nor the sessions, and logs the
    one call it makes. *)
Lemma convert_query_world (query : str) (w : world) :
  snd (convert_query_to_google_query sv query w) =
  mkWorld (leads_table w) (sessions w)
    (trace w ++ [GenerateContent gemini_model (prompt query)]).
Proof.
  unfold convert_query_to_google_query; run_monad.
  destruct (generate_content sv gemini_model (prompt query)) as [[[t|]]|e];
    cbn [text]; try reflexivity.
  destruct (utf8_encodable (strip t)); reflexivity.
Qed.

(** Its only failure is the reported one. *)
Lemma convert_query_result (query : str) (w : world) :
  (exists s, fst (convert_query_to_google_query sv query w) = Ok s) \/
  fst (convert_query_to_google_query sv query w) =
    Raise (HTTPException 500 (lit "Gemini failed")).
Proof.
  unfold convert_query_to_google_query; run_monad.
  destruct (generate_content sv gemini_model (prompt query)) as [[[t|]]|e];
    cbn [text]; try (right; reflexivity).
  destruct (utf8_encodable (strip t)); cbn [fst]; eauto.
Qed.

End Translator.

Definition gemini_failure : exn :=
  HTTPException 500 (lit "Gemini failed").

(** C5 as the specification words it: whenever the model call returns a
    text, the translator returns that text stripped. *)
Definition translator_returns_every_stripped_text : Prop :=
  forall (sv : services) (query : str) (w : world) (t : str),
    generate_content sv gemini_model (prompt query) = Ok {| text := Some t |} ->
    fst (convert_query_to_google_query sv query w) = Ok (strip t).

(** C5, counterexample.  The model call succeeds and its text is the one
    code point U+D800, a lone surrogate.  Nothing is stripped, but the
    [print] of the result inside the [try] raises [UnicodeEncodeError], and
    the translator reports "Gemini failed" instead of returning the text. *)
Lemma convert_query_unprintable_text :
  strip [55296%N] = [55296%N] /\
  fst (convert_query_to_google_query Scenario.surrogate_answer
         Scenario.ceo_in_mumbai Scenario.empty_world)
  = Raise gemini_failure /\
  ~ translator_returns_every_stripped_text.
Proof.
  split; [reflexivity|].
  split; [reflexivity|].
  intros claim.
  pose proof (claim Scenario.surrogate_answer Scenario.ceo_in_mumbai
                Scenario.empty_world [55296%N] eq_refl) as Hrun.
  vm_compute in Hrun; discriminate Hrun.
Qed.

(** C5, amended.  For every query, the translator makes exactly one call, to
    the model [gemini-2.5-flash], whose contents are the fixed template (the
    instruction and the one example pair) with the query in its place; and
    when the call returns a text [t] whose stripped form standard output can
    encode, the translator returns [t] with the whitespace at its two ends
    removed and nothing else changed: [t] is the returned string between two
    blocks of whitespace, and the returned string has no whitespace at either
    end. *)
Theorem convert_query_prompt_and_strip
    (sv : services) (query : str) (w : world) :
  let model := lit "gemini-2.5-flash" in
  let contents :=
    nl ++
    lit "    Convert this query into a Google search query " ++ nl ++
    lit "    to find LinkedIn profiles." ++ nl ++
    nl ++
    lit "    Only return the search query string." ++ nl ++
    lit "    No explanation." ++ nl ++
    nl ++
    lit "    Example:" ++ nl ++
    lit "    Input: CEO in Mumbai" ++ nl ++
    lit "    Output: site:linkedin.com/in " ++
      dquote ++ lit "CEO" ++ dquote ++ lit " " ++
      dquote ++ lit "Mumbai" ++ dquote ++ nl ++
    nl ++
    lit "    Query: " ++ query ++ nl ++
    lit "    " in
  trace (snd (convert_query_to_google_query sv query w)) =
    trace w ++ [GenerateContent model contents] /\
  forall t : str,
    generate_content sv model contents = Ok {| text := Some t |} ->
    utf8_encodable (strip t) = true ->
    fst (convert_query_to_google_query sv query w) = Ok (strip t) /\
    exists a b : str,
      t = a ++ strip t ++ b /\
      forallb isspace a = true /\ forallb isspace b = true /\
      PyStrFacts.starts_clean (strip t) /\
      PyStrFacts.starts_clean (rev (strip t)).
Proof.
  cbv zeta.
  split; [rewrite convert_query_world; reflexivity|].
  intros t Ht Hprint; split.
  - unfold convert_query_to_google_query; run_monad.
    change (generate_content sv gemini_model (prompt query)
            = Ok {| text := Some t |}) in Ht.
    rewrite Ht; cbn [text]; rewrite Hprint; reflexivity.
  - apply PyStrFacts.strip_split.
Qed.

Lemma convert_query_prompt_and_strip_witness :
  fst (convert_query_to_google_query
         (Scenario.happy [Scenario.jane]) Scenario.ceo_in_mumbai
         Scenario.empty_world)
  = Ok Scenario.google_query.
Proof.
  exact (proj1
           (proj2
              (convert_query_prompt_and_strip
                 (Scenario.happy [Scenario.jane]) Scenario.ceo_in_mumbai
                 Scenario.empty_world)
              (Scenario.google_query ++ nl) eq_refl eq_refl)).
Defined.

(* ================================================================= *)
(** ** Step 2: the lead fetcher *)

(** The LinkedIn profile path segment the fetcher looks for. *)
Definition profile_segment : str := lit "linkedin.com/in".

(** An organic result counts as a profile when it is an object whose ["url"]
    is a string that contains the segment. *)
Definition is_profile (item : pyval) : bool :=
  match item with
  | PDict d =>
      match dict_get d (lit "url") with
      | Some (PStr s) => contains profile_segment s
      | _ => false
      end
  | _ => false
  end.

(** The shape the fetcher can read: an object whose ["url"], when present, is
    a string, and whose ["personalInfo"], when the item is a profile and the
    key is present, is an object. *)
Definition well_shaped (item : pyval) : bool :=
  match item with
  | PDict d =>
      match dict_get d (lit "url") with
      | None => true
      | Some (PStr s) =>
          if contains profile_segment s then
            match dict_get d (lit "personalInfo") with
            | None | Some (PDict _) => true
            | Some _ => false
            end
          else true
      | Some _ => false
      end
  | _ => false
  end.

(** [lead] is the record the loop body builds for [item]. *)
Definition lead_for (item lead : pyval) : Prop :=
  exists link personal_info : pyval,
    py_get item (lit "url") (PStr []) = Ok link /\
    py_get item (lit "personalInfo") (PDict []) = Ok personal_info /\
    lead_of item personal_info link = Ok lead.

(** The six entries of a record of the fetcher. *)
Definition lead_dict (name title company location link : pyval) : pyval :=
  PDict [ (lit "name", name);
          (lit "title", title);
          (lit "email", PNone);
          (lit "organization", PDict [ (lit "name", company) ]);
          (lit "location", location);
          (lit "linkedin_url", link) ].

Section Fetcher.

Variable sv : services.

Lemma lead_of_inv (item personal_info link lead : pyval) :
  lead_of item personal_info link = Ok lead ->
  exists name title company location : pyval,
    py_get item (lit "title") PNone = Ok name /\
    py_get personal_info (lit "jobTitle") PNone = Ok title /\
    py_get personal_info (lit "companyName") PNone = Ok company /\
    py_get personal_info (lit "location") PNone = Ok location /\
    lead = lead_dict name title company location link.
Proof.
  unfold lead_of, rbind.
  destruct (py_get item (lit "title") PNone) as [nm|]; [|discriminate].
  destruct (py_get personal_info (lit "jobTitle") PNone) as [tt|];
    [|discriminate].
  destruct (py_get personal_info (lit "companyName") PNone) as [co|];
    [|discriminate].
  destruct (py_get personal_info (lit "location") PNone) as [lo|];
    [|discriminate].
  intros [= <-]; exists nm, tt, co, lo; auto.
Qed.

(** What the loop returns extends what it was given, by records it built
    from items of the list. *)
Lemma fetch_loop_inv (items acc leads : list pyval) :
  fetch_loop items acc = Ok leads ->
  exists new : list pyval,
    leads = acc ++ new /\
    Forall (fun lead => exists item, In item items /\ lead_for item lead) new.
Proof.
  revert acc; induction items as [|item rest IH]; intros acc;
    cbn [fetch_loop].
  - intros [= <-]; exists []; rewrite app_nil_r; auto.
  - unfold rbind at 1.
    destruct (py_get item (lit "url") (PStr [])) as [link|] eqn:Hlink;
      [|discriminate].
    unfold rbind at 1.
    destruct (py_str_in (lit "linkedin.com/in") link) as [[|]|] eqn:Hin;
      [| |discriminate].
    + unfold rbind at 1.
      destruct (py_get item (lit "personalInfo") (PDict [])) as [pi|] eqn:Hpi;
        [|discriminate].
      unfold rbind at 1.
      destruct (lead_of item pi link) as [lead|] eqn:Hlead; [|discriminate].
      intros H; destruct (IH _ H) as [new [-> Hnew]].
      exists (lead :: new); split; [rewrite <- app_assoc; reflexivity|].
      constructor.
      * exists item; split; [left; reflexivity|].
        exists link, pi; auto.
      * eapply Forall_impl; [|exact Hnew].
        intros l [it [Hit Hl]]; exists it; split; [right; exact Hit|exact Hl].
    + intros H; destruct (IH _ H) as [new [-> Hnew]].
      exists new; split; [reflexivity|].
      eapply Forall_impl; [|exact Hnew].
      intros l [it [Hit Hl]]; exists it; split; [right; exact Hit|exact Hl].
Qed.

(** On results of the readable shape the loop keeps the profiles, in order,
    and builds one record for each. *)
Lemma fetch_loop_well_shaped (items acc : list pyval) :
  forallb well_shaped items = true ->
  exists new : list pyval,
    fetch_loop items acc = Ok (acc ++ new) /\
    Forall2 lead_for (filter is_profile items) new.
Proof.
  revert acc; induction items as [|item rest IH]; intros acc;
    cbn [fetch_loop forallb filter].
  - intros _; exists []; rewrite app_nil_r; auto.
  - rewrite andb_true_iff; intros [Hitem Hrest].
    destruct item as [| | | | |l|d]; try discriminate Hitem.
    cbn [well_shaped is_profile] in *.
    unfold rbind at 1; cbn [py_get].
    destruct (dict_get d (lit "url")) as [[| | | |s| |]|] eqn:Hurl;
      try discriminate Hitem.
    + unfold rbind at 1; cbn [py_str_in].
      fold profile_segment.
      destruct (contains profile_segment s) eqn:Hs.
      * unfold rbind at 1.
        assert (Hpi : exists p,
                   (match dict_get d (lit "personalInfo") with
                    | Some v => v
                    | None => PDict []
                    end) = PDict p).
        { destruct (dict_get d (lit "personalInfo")) as [[| | | | | |p]|];
            try discriminate Hitem; eauto. }
        destruct Hpi as [p Hp]; rewrite Hp.
        unfold rbind at 1.
        destruct (IH (acc ++ [lead_dict
                       (match dict_get d (lit "title") with
                        | Some v => v | None => PNone end)
                       (match dict_get p (lit "jobTitle") with
                        | Some v => v | None => PNone end)
                       (match dict_get p (lit "companyName") with
                        | Some v => v | None => PNone end)
                       (match dict_get p (lit "location") with
                        | Some v => v | None => PNone end)
                       (PStr s)]) Hrest) as [new [Hrun Hnew]].
        eexists (_ :: new); split.
        -- cbn [lead_of py_get rbind]. unfold lead_dict in Hrun.
           rewrite Hrun, <- app_assoc; reflexivity.
        -- constructor; [|exact Hnew].
           exists (PStr s), (PDict p); cbn [py_get]; rewrite Hurl, Hp.
           auto.
      * destruct (IH acc Hrest) as [new [Hrun Hnew]].
        exists new; auto.
    + unfold rbind at 1; cbn [py_str_in].
      replace (contains (lit "linkedin.com/in") []) with false by reflexivity.
      destruct (IH acc Hrest) as [new [Hrun Hnew]].
      exists new; auto.
Qed.

(** The fetcher touches neither the table nor the sessions, and logs the one
    request it sends. *)
Lemma fetch_leads_world (search_query : str) (w : world) :
  snd (fetch_leads sv search_query w) =
  mkWorld (leads_table w) (sessions w)
    (trace w ++ [RequestsPost (apify_url sv) (apify_payload search_query)]).
Proof.
  unfold fetch_leads; run_monad.
  repeat (case_scrutinee; try reflexivity).
Qed.

Definition apify_failure : exn :=
  HTTPException 500 (lit "Apify request failed").

(** Every exception raised in the body, the body's own [HTTPException]
    included, is replaced by the handler's. *)
Lemma fetch_leads_result (search_query : str) (w : world) :
  (exists leads : list pyval,
     fst (fetch_leads sv search_query w) = Ok (PList leads) /\
     Forall (fun lead => exists item, lead_for item lead) leads) \/
  fst (fetch_leads sv search_query w) = Raise apify_failure.
Proof.
  unfold fetch_leads; run_monad.
  repeat (case_scrutinee; cbn [fst]; try (right; reflexivity)).
  - left; exists []; auto.
  - left; eexists; split; [reflexivity|].
    match goal with
    | H : fetch_loop _ [] = Ok _ |- _ =>
        destruct (fetch_loop_inv _ _ _ H) as [new [-> Hnew]]
    end.
    cbn [app]; eapply Forall_impl; [|exact Hnew].
    intros lead [item [_ Hl]]; exists item; exact Hl.
Qed.

(** The run of the fetcher on an answer with a success status and a
    document whose first result set is an object. *)
Lemma fetch_leads_first_set (search_query : str) (w : world)
    (response : Response) (first : list (str * pyval)) (rest : list pyval) :
  requests_post sv (apify_url sv) (apify_payload search_query) = Ok response ->
  status_code response = 200 \/ status_code response = 201 ->
  json response = Ok (PList (PDict first :: rest)) ->
  fst (fetch_leads sv search_query w) =
  match
    (let* items :=
       py_iter (match dict_get first (lit "organicResults") with
                | Some v => v
                | None => PList []
                end) in
     fetch_loop items [])
  with
  | Ok leads => Ok (PList leads)
  | Raise _ => Raise apify_failure
  end.
Proof.
  intros Hpost Hstatus Hjson.
  unfold fetch_leads; run_monad.
  rewrite Hpost.
  replace (negb (status_code response =? 200) &&
           negb (status_code response =? 201)) with false
    by (destruct Hstatus as [-> | ->]; reflexivity).
  rewrite Hjson; cbn [py_truthy negb py_item0 py_get].
  unfold rbind.
  destruct (py_iter _) as [items|]; [|reflexivity].
  destruct (fetch_loop items []); reflexivity.
Qed.

End Fetcher.

(** C1 as the specification words it: whatever the answer of the scraping
    service, if its first result set lists organic results then the fetcher
    returns one record per profile among them. *)
Definition one_lead_per_profile_in_every_response : Prop :=
  forall (sv : services) (search_query : str) (w : world)
         (response : Response) (first : list (str * pyval))
         (rest items : list pyval),
    requests_post sv (apify_url sv) (apify_payload search_query)
      = Ok response ->
    json response = Ok (PList (PDict first :: rest)) ->
    dict_get first (lit "organicResults") = Some (PList items) ->
    exists leads : list pyval,
      fst (fetch_leads sv search_query w) = Ok (PList leads) /\
      List.length leads = List.length (filter is_profile items).

(** C1, counterexample.  The service answers 200 with one organic result, a
    profile whose ["personalInfo"] is [null]: N = 1 and M = 1, but reading
    [jobTitle] from [None] raises, and the fetcher reports a failure instead
    of returning one record. *)
Lemma fetch_leads_null_personal_info :
  List.length (filter is_profile [Scenario.anonymous]) = 1%nat /\
  fst (fetch_leads
         (Scenario.happy [Scenario.anonymous]) Scenario.google_query
         Scenario.empty_world)
  = Raise apify_failure /\
  ~ one_lead_per_profile_in_every_response.
Proof.
  split; [reflexivity|].
  split; [vm_compute; reflexivity|].
  intros claim.
  destruct (claim (Scenario.happy [Scenario.anonymous]) Scenario.google_query
              Scenario.empty_world _ _ _ _ eq_refl eq_refl eq_refl)
    as [leads [Hrun _]].
  vm_compute in Hrun; discriminate Hrun.
Qed.

(** The other conditions of the amended statement are needed as well: a
    result that is not an object, and a ["url"] that is not a string, make
    the fetcher fail too, and so does a status other than 200 and 201. *)
Example fetch_leads_result_not_object :
  fst (fetch_leads
         (Scenario.happy [PStr (lit "https://www.linkedin.com/in/jane")])
         Scenario.google_query Scenario.empty_world)
  = Raise apify_failure.
Proof. vm_compute; reflexivity. Qed.

Example fetch_leads_url_not_string :
  fst (fetch_leads
         (Scenario.happy [PDict [ (lit "url", PNone) ]])
         Scenario.google_query Scenario.empty_world)
  = Raise apify_failure.
Proof. vm_compute; reflexivity. Qed.

(** C1, amended.  When the service answers 200 or 201 with a document whose
    first result set lists organic results of the readable shape (objects
    whose ["url"], if any, is a string and whose ["personalInfo"], for a
    profile, is absent or an object), the fetcher returns exactly one record
    per profile, built from that profile, in the order of the results. *)
Theorem fetch_leads_one_lead_per_profile
    (sv : services) (search_query : str) (w : world)
    (response : Response) (first : list (str * pyval))
    (rest items : list pyval) :
  requests_post sv (apify_url sv) (apify_payload search_query)
    = Ok response ->
  status_code response = 200 \/ status_code response = 201 ->
  json response = Ok (PList (PDict first :: rest)) ->
  dict_get first (lit "organicResults") = Some (PList items) ->
  forallb well_shaped items = true ->
  exists leads : list pyval,
    fst (fetch_leads sv search_query w) = Ok (PList leads) /\
    List.length leads = List.length (filter is_profile items) /\
    Forall2 lead_for (filter is_profile items) leads.
Proof.
  intros Hpost Hstatus Hjson Horganic Hshape.
  rewrite (fetch_leads_first_set sv search_query w response first rest
             Hpost Hstatus Hjson).
  rewrite Horganic; cbn [py_iter rbind].
  destruct (fetch_loop_well_shaped items [] Hshape) as [leads [-> Hleads]].
  exists leads; repeat split; auto.
  symmetry; eapply Forall2_length; exact Hleads.
Qed.

Lemma fetch_leads_one_lead_per_profile_witness :
  exists leads : list pyval,
    fst (fetch_leads
           (Scenario.happy [Scenario.company_page; Scenario.jane])
           Scenario.google_query Scenario.empty_world)
    = Ok (PList leads) /\
    List.length leads =
      List.length
        (filter is_profile [Scenario.company_page; Scenario.jane]) /\
    Forall2 lead_for
      (filter is_profile [Scenario.company_page; Scenario.jane]) leads.
Proof.
  apply (fetch_leads_one_lead_per_profile
           (Scenario.happy [Scenario.company_page; Scenario.jane])
           Scenario.google_query Scenario.empty_world
           {| status_code := 200;
              json := Ok (Scenario.dataset
                            [Scenario.company_page; Scenario.jane]) |}
           (Scenario.result_set [Scenario.company_page; Scenario.jane])
           [] [Scenario.company_page; Scenario.jane]).
  - reflexivity.
  - left; reflexivity.
  - reflexivity.
  - reflexivity.
  - reflexivity.
Defined.

(** C7.  When the service answers 200 or 201 and the document is the empty
    array, or its first result set has no ["organicResults"] or an empty
    one, the fetcher returns the empty list and raises nothing. *)
Theorem fetch_leads_no_results
    (sv : services) (search_query : str) (w : world)
    (response : Response) (results : pyval) :
  requests_post sv (apify_url sv) (apify_payload search_query)
    = Ok response ->
  status_code response = 200 \/ status_code response = 201 ->
  json response = Ok results ->
  results = PList [] \/
  (exists (first : list (str * pyval)) (rest : list pyval),
     results = PList (PDict first :: rest) /\
     (dict_get first (lit "organicResults") = None \/
      dict_get first (lit "organicResults") = Some (PList []))) ->
  fst (fetch_leads sv search_query w) = Ok (PList []).
Proof.
  intros Hpost Hstatus Hjson [-> | [first [rest [-> Horganic]]]].
  - unfold fetch_leads; run_monad.
    rewrite Hpost.
    replace (negb (status_code response =? 200) &&
             negb (status_code response =? 201)) with false
      by (destruct Hstatus as [-> | ->]; reflexivity).
    rewrite Hjson; reflexivity.
  - rewrite (fetch_leads_first_set sv search_query w response first rest
               Hpost Hstatus Hjson).
    destruct Horganic as [-> | ->]; reflexivity.
Qed.

Lemma fetch_leads_no_results_witness :
  fst (fetch_leads (Scenario.happy []) Scenario.google_query
         Scenario.empty_world)
  = Ok (PList []).
Proof.
  apply (fetch_leads_no_results (Scenario.happy []) Scenario.google_query
           Scenario.empty_world
           {| status_code := 200; json := Ok (Scenario.dataset []) |}
           (Scenario.dataset [])).
  - reflexivity.
  - left; reflexivity.
  - reflexivity.
  - right; exists (Scenario.result_set []), [].
    split; [reflexivity | right; reflexivity].
Defined.

(* ================================================================= *)
(** ** Step 3: the lead store *)

Definition database_failure : exn :=
  HTTPException 500 (lit "Database error").

(** The objects built for the elements of [leads], up to the first element
    that is not a dict of the expected shape. *)
Fixpoint new_leads (items : list pyval) : result (list Lead) :=
  match items with
  | [] => Ok []
  | lead :: rest =>
      let* obj := new_lead lead in
      let* objs := new_leads rest in
      Ok (obj :: objs)
  end.

Section MonadEquations.

Context {A B : Type}.

Lemma bind_run (m : M A) (k : A -> M B) (w : world) :
  bind m k w =
  match m w with
  | (Ok a, w') => k a w'
  | (Raise e, w') => (Raise e, w')
  end.
Proof. reflexivity. Qed.

Lemma try_except_run (body : M A) (handler : exn -> M A) (w : world) :
  try_except body handler w =
  match body w with
  | (Ok a, w') => (Ok a, w')
  | (Raise e, w') => handler e w'
  end.
Proof. reflexivity. Qed.

Lemma try_finally_run (body : M A) (final : M unit) (w : world) :
  try_finally body final w =
  match body w with
  | (r, w') =>
      match final w' with
      | (Ok _, w'') => (r, w'')
      | (Raise e, w'') => (Raise e, w'')
      end
  end.
Proof. reflexivity. Qed.

End MonadEquations.

Section ListUpdate.

Context {A : Type}.

Lemma list_update_last (f : A -> A) (l : list A) (x : A) :
  list_update (List.length l) f (l ++ [x]) = l ++ [f x].
Proof.
  unfold list_update.
  rewrite firstn_app, firstn_all, Nat.sub_diag, skipn_app, skipn_all,
    Nat.sub_diag; simpl.
  rewrite app_nil_r; reflexivity.
Qed.

Lemma nth_error_last (l : list A) (x : A) :
  nth_error (l ++ [x]) (List.length l) = Some x.
Proof.
  rewrite nth_error_app2, Nat.sub_diag by apply Nat.le_refl; reflexivity.
Qed.

End ListUpdate.

Section Store.

Variable sv : services.

(** A flush that goes through has inserted every new object, in order. *)
Lemma flush_accepted (table txn new txn' rest : list Lead) :
  flush sv table txn new = (txn', rest, true) ->
  txn' = txn ++ new /\ rest = [].
Proof.
  revert txn; induction new as [|obj new IH]; intros txn; simpl.
  - intros [= <- <-]; rewrite app_nil_r; auto.
  - destruct (insert_ok sv table txn obj); [|discriminate].
    intros H; destruct (IH _ H) as [-> ->].
    rewrite <- app_assoc; auto.
Qed.

(** A refused INSERT makes the flush fail, at that object or before. *)
Lemma flush_refused (table txn pre post : list Lead) (obj : Lead) :
  insert_ok sv table (txn ++ pre) obj = false ->
  snd (flush sv table txn (pre ++ obj :: post)) = false.
Proof.
  revert txn; induction pre as [|x pre IH]; intros txn; simpl.
  - rewrite app_nil_r; intros ->; reflexivity.
  - intros H; destruct (insert_ok sv table txn x); [|reflexivity].
    apply IH; rewrite <- app_assoc; exact H.
Qed.

(** A flush in which no INSERT is refused goes through. *)
Lemma flush_all_accepted (table txn new : list Lead) :
  (forall pre obj post,
     new = pre ++ obj :: post ->
     insert_ok sv table (txn ++ pre) obj = true) ->
  flush sv table txn new = (txn ++ new, [], true).
Proof.
  revert txn; induction new as [|obj new IH]; intros txn Hall; cbn [flush].
  - rewrite app_nil_r; reflexivity.
  - pose proof (Hall [] obj new eq_refl) as Hobj.
    rewrite app_nil_r in Hobj; rewrite Hobj.
    rewrite IH.
    + rewrite <- app_assoc; reflexivity.
    + intros pre o post ->.
      rewrite <- app_assoc; exact (Hall (obj :: pre) o post eq_refl).
Qed.

(** The loop of [store_leads] on the session [db] opened last. *)
Lemma for_each_add (items : list pyval) (table : list Lead)
    (ss : list session) (s : session) (tr : list event) :
  let db := List.length ss in
  let run :=
    for_each items
      (fun lead => obj <- lift (new_lead lead) ;; db_add db obj)
      (mkWorld table (ss ++ [s]) tr) in
  exists pending : list Lead,
    snd run =
      mkWorld table
        (ss ++ [mkSession pending (in_transaction s) (closed s)]) tr /\
    match new_leads items with
    | Ok objs => fst run = Ok tt /\ pending = new_objects s ++ objs
    | Raise e => fst run = Raise e
    end.
Proof.
  intros db; unfold db; clear db.
  revert s; induction items as [|lead rest IH]; intros s;
    cbn [for_each new_leads]; run_monad.
  - exists (new_objects s); destruct s; simpl; rewrite app_nil_r; auto.
  - unfold rbind at 1.
    destruct (new_lead lead) as [obj|e]; cbn [sessions leads_table trace].
    + rewrite list_update_last.
      destruct (IH (mkSession (new_objects s ++ [obj]) (in_transaction s)
                      (closed s))) as [pending [Hw Hr]].
      exists pending; split; [exact Hw|].
      cbn [new_objects] in Hr. unfold rbind.
      destruct (new_leads rest) as [objs|e]; [|exact Hr].
      destruct Hr as [Hr ->]; split; [exact Hr|].
      rewrite <- app_assoc; reflexivity.
    + exists (new_objects s); destruct s; auto.
Qed.

Definition session_closed : session := mkSession [] [] true.

(** The rows a call of [store_leads] commits, if it commits. *)
Definition committed_rows (table : list Lead) (leads : pyval)
  : option (list Lead) :=
  match py_iter leads with
  | Ok items =>
      match new_leads items with
      | Ok objs =>
          if snd (flush sv table [] objs) && commit_ok sv table objs
          then Some objs
          else None
      | Raise _ => None
      end
  | Raise _ => None
  end.

Lemma store_leads_run (leads : pyval) (w : world) :
  store_leads sv leads w =
  match committed_rows (leads_table w) leads with
  | Some objs =>
      (Ok tt,
       mkWorld (leads_table w ++ objs) (sessions w ++ [session_closed])
         (trace w))
  | None =>
      (Raise database_failure,
       mkWorld (leads_table w) (sessions w ++ [session_closed]) (trace w))
  end.
Proof.
  unfold store_leads, committed_rows.
  rewrite bind_run; unfold SessionLocal at 1.
  rewrite try_finally_run, try_except_run, bind_run.
  unfold lift at 1.
  destruct (py_iter leads) as [items|e].
  - rewrite bind_run.
    destruct (for_each_add items (leads_table w) (sessions w)
                (mkSession [] [] false) (trace w)) as [pending [Hw Hr]].
    cbv zeta in Hw, Hr.
    destruct (for_each items _ _) as [r w1].
    cbn [fst snd] in Hw, Hr; subst w1.
    destruct (new_leads items) as [objs|e].
    + destruct Hr as [-> ->]; cbn [app new_objects in_transaction closed].
      unfold db_commit; cbn [sessions leads_table trace].
      rewrite nth_error_last; cbn [new_objects in_transaction closed].
      destruct (flush sv (leads_table w) [] objs) as [[txn rest] flushed] eqn:Hf.
      cbn [snd].
      destruct flushed.
      * destruct (flush_accepted _ _ _ _ _ Hf) as [-> ->]; cbn [app andb].
        destruct (commit_ok sv (leads_table w) objs).
        -- unfold db_close, update_session; cbn [sessions leads_table trace].
           rewrite !list_update_last; reflexivity.
        -- rewrite bind_run.
           unfold db_rollback, db_close, update_session, raise;
             cbn [sessions leads_table trace].
           rewrite !list_update_last; reflexivity.
      * cbn [andb]. rewrite bind_run.
        unfold db_rollback, db_close, update_session, raise;
          cbn [sessions leads_table trace].
        rewrite !list_update_last; reflexivity.
    + rewrite Hr, bind_run.
      unfold db_rollback, db_close, update_session, raise;
        cbn [sessions leads_table trace].
      rewrite !list_update_last; reflexivity.
  - rewrite bind_run.
    unfold db_rollback, db_close, update_session, raise;
      cbn [sessions leads_table trace].
    rewrite !list_update_last; reflexivity.
Qed.

End Store.

Section StoreFacts.

Variable sv : services.

Lemma new_leads_Forall2 (items : list pyval) (objs : list Lead) :
  new_leads items = Ok objs <->
  Forall2 (fun lead obj => new_lead lead = Ok obj) items objs.
Proof.
  revert objs; induction items as [|lead rest IH]; intros objs;
    cbn [new_leads].
  - split; [intros [= <-]; constructor | intros H; inversion H; reflexivity].
  - unfold rbind at 1.
    destruct (new_lead lead) as [obj|e] eqn:Hlead.
    + unfold rbind.
      destruct (new_leads rest) as [objs'|e] eqn:Hrest.
      * split.
        -- intros [= <-]; constructor; [exact Hlead | apply IH; reflexivity].
        -- intros H; inversion H as [|? o ? os Ho Hos]; subst.
           apply IH in Hos; congruence.
      * split; [discriminate|].
        intros H; inversion H as [|? o ? os Ho Hos]; subst.
        apply IH in Hos; discriminate.
    + split; [discriminate|].
      intros H; inversion H; congruence.
Qed.

(** Whatever happens, the table only grows by objects built from the
    elements of [leads]; on a failure it does not grow at all. *)
Lemma store_leads_table (leads : pyval) (w : world) :
  exists objs : list Lead,
    leads_table (snd (store_leads sv leads w)) = leads_table w ++ objs /\
    (fst (store_leads sv leads w) = Ok tt \/
     fst (store_leads sv leads w) = Raise database_failure /\ objs = []) /\
    forall items : list pyval,
      py_iter leads = Ok items ->
      Forall (fun obj => exists lead, In lead items /\ new_lead lead = Ok obj)
        objs.
Proof.
  rewrite store_leads_run; unfold committed_rows.
  destruct (py_iter leads) as [items|e].
  - destruct (new_leads items) as [objs|e] eqn:Hobjs.
    + destruct (snd (flush sv (leads_table w) [] objs) &&
                commit_ok sv (leads_table w) objs).
      * exists objs; cbn [fst snd leads_table]; repeat split; auto.
        intros items' [= <-].
        apply new_leads_Forall2 in Hobjs.
        clear -Hobjs; induction Hobjs as [|lead obj ? ? H ? IH];
          constructor.
        -- exists lead; split; [left; reflexivity | exact H].
        -- eapply Forall_impl; [|exact IH].
           intros o [x [Hx Ho]]; exists x; split; [right; exact Hx|exact Ho].
      * exists []; cbn [fst snd leads_table]; rewrite app_nil_r; auto.
    + exists []; cbn [fst snd leads_table]; rewrite app_nil_r; auto.
  - exists []; cbn [fst snd leads_table]; rewrite app_nil_r; auto.
Qed.

End StoreFacts.

(** C2.  For every argument [leads], either [store_leads] returns and the
    table has grown by exactly one row per element, in order (all K rows,
    committed), or it raises the database error and the table is what it was
    (no row persisted).  The first case is the one that occurs when the
    database accepts the INSERT of every row and the COMMIT; the second is
    the one that occurs as soon as the database refuses the INSERT of any one
    of the rows. *)
Theorem store_leads_all_or_nothing
    (sv : services) (leads : pyval) (w : world) :
  ((fst (store_leads sv leads w) = Ok tt /\
    (exists (items : list pyval) (objs : list Lead),
       py_iter leads = Ok items /\
       Forall2 (fun lead obj => new_lead lead = Ok obj) items objs /\
       List.length objs = List.length items /\
       leads_table (snd (store_leads sv leads w)) = leads_table w ++ objs))
   \/
   (fst (store_leads sv leads w) = Raise database_failure /\
    leads_table (snd (store_leads sv leads w)) = leads_table w)) /\
  (forall (items : list pyval) (objs : list Lead),
     leads = PList items ->
     Forall2 (fun lead obj => new_lead lead = Ok obj) items objs ->
     (forall (pre post : list Lead) (obj : Lead),
        objs = pre ++ obj :: post ->
        insert_ok sv (leads_table w) pre obj = true) ->
     commit_ok sv (leads_table w) objs = true ->
     fst (store_leads sv leads w) = Ok tt /\
     List.length objs = List.length items /\
     leads_table (snd (store_leads sv leads w)) = leads_table w ++ objs) /\
  (forall (items : list pyval) (pre post : list Lead) (obj : Lead),
     leads = PList items ->
     Forall2 (fun lead obj => new_lead lead = Ok obj) items
       (pre ++ obj :: post) ->
     insert_ok sv (leads_table w) pre obj = false ->
     fst (store_leads sv leads w) = Raise database_failure /\
     leads_table (snd (store_leads sv leads w)) = leads_table w).
Proof.
  rewrite store_leads_run; unfold committed_rows; split; [|split].
  - destruct (py_iter leads) as [items|e]; [|right; auto].
    destruct (new_leads items) as [objs|e] eqn:Hobjs; [|right; auto].
    destruct (snd (flush sv (leads_table w) [] objs) &&
              commit_ok sv (leads_table w) objs); [|right; auto].
    left; split; [reflexivity|].
    apply new_leads_Forall2 in Hobjs.
    exists items, objs; repeat split; auto.
    symmetry; eapply Forall2_length; exact Hobjs.
  - intros items objs -> Hobjs Hinsert Hcommit.
    pose proof (Forall2_length Hobjs) as Hlen.
    apply new_leads_Forall2 in Hobjs.
    cbn [py_iter]; rewrite Hobjs.
    rewrite (flush_all_accepted sv (leads_table w) [] objs)
      by (intros pre o post; apply Hinsert).
    cbn [snd andb]; rewrite Hcommit; auto.
  - intros items pre post obj -> Hobjs Hrefused.
    apply new_leads_Forall2 in Hobjs.
    cbn [py_iter]; rewrite Hobjs.
    rewrite (flush_refused sv (leads_table w) [] pre post obj Hrefused).
    auto.
Qed.

Lemma store_leads_all_or_nothing_witness :
  (fst (store_leads (Scenario.strict [])
          (PList [Scenario.jane_lead; Scenario.jane_lead])
          Scenario.empty_world)
   = Ok tt /\
   List.length [Scenario.jane_row; Scenario.jane_row]
   = List.length [Scenario.jane_lead; Scenario.jane_lead] /\
   leads_table
     (snd (store_leads (Scenario.strict [])
             (PList [Scenario.jane_lead; Scenario.jane_lead])
             Scenario.empty_world))
   = [] ++ [Scenario.jane_row; Scenario.jane_row]) /\
  (fst (store_leads (Scenario.strict [])
          (PList [Scenario.jane_lead; Scenario.member_lead])
          Scenario.empty_world)
   = Raise database_failure /\
   leads_table
     (snd (store_leads (Scenario.strict [])
             (PList [Scenario.jane_lead; Scenario.member_lead])
             Scenario.empty_world))
   = []).
Proof.
  split.
  - apply (proj1 (proj2
             (store_leads_all_or_nothing (Scenario.strict [])
                (PList [Scenario.jane_lead; Scenario.jane_lead])
                Scenario.empty_world))
             [Scenario.jane_lead; Scenario.jane_lead]
             [Scenario.jane_row; Scenario.jane_row] eq_refl).
    + constructor; [reflexivity|].
      constructor; [reflexivity|].
      constructor.
    + intros pre post obj Hsplit.
      assert (Hin : In obj [Scenario.jane_row; Scenario.jane_row])
        by (rewrite Hsplit; apply in_elt).
      destruct Hin as [<- | [<- | []]]; reflexivity.
    + reflexivity.
  - apply (proj2 (proj2
             (store_leads_all_or_nothing (Scenario.strict [])
                (PList [Scenario.jane_lead; Scenario.member_lead])
                Scenario.empty_world))
             [Scenario.jane_lead; Scenario.member_lead]
             [Scenario.jane_row] [] Scenario.member_row eq_refl).
    + constructor; [reflexivity|].
      constructor; [reflexivity|].
      constructor.
    + reflexivity.
Defined.

(** C8.  Whatever [leads] is and whatever the database answers,
    [store_leads] leaves through one of its two exits, the return after the
    commit or the raised database error, and at either exit the session that
    [SessionLocal()] opened at the start of the call is closed; the sessions
    that existed before are untouched. *)
Theorem store_leads_closes_session
    (sv : services) (leads : pyval) (w : world) :
  let db := List.length (sessions w) in
  let run := store_leads sv leads w in
  fst (SessionLocal w) = Ok db /\
  nth_error (sessions (snd (SessionLocal w))) db
    = Some (mkSession [] [] false) /\
  (fst run = Ok tt \/ fst run = Raise database_failure) /\
  (exists s : session,
     nth_error (sessions (snd run)) db = Some s /\ closed s = true) /\
  firstn db (sessions (snd run)) = sessions w /\
  List.length (sessions (snd run)) = S db.
Proof.
  cbv zeta; rewrite store_leads_run.
  split; [reflexivity|].
  split; [apply nth_error_last|].
  destruct (committed_rows sv (leads_table w) leads) as [objs|];
    cbn [fst snd sessions].
  - split; [left; reflexivity|].
    split; [exists session_closed; split; [apply nth_error_last|reflexivity]|].
    rewrite firstn_app, firstn_all, Nat.sub_diag, length_app; simpl.
    rewrite app_nil_r, Nat.add_1_r; auto.
  - split; [right; reflexivity|].
    split; [exists session_closed; split; [apply nth_error_last|reflexivity]|].
    rewrite firstn_app, firstn_all, Nat.sub_diag, length_app; simpl.
    rewrite app_nil_r, Nat.add_1_r; auto.
Qed.

(* ================================================================= *)
(** ** From the fetcher to the store *)

(** The organic results the loop of [fetch_leads] visits: the elements of
    ["organicResults"] in the first result set of the decoded answer. *)
Definition organic_results_of (sv : services) (search_query : str)
  : list pyval :=
  match requests_post sv (apify_url sv) (apify_payload search_query) with
  | Ok response =>
      match json response with
      | Ok results =>
          match py_item0 results with
          | Ok first =>
              match py_get first (lit "organicResults") (PList []) with
              | Ok organic_results =>
                  match py_iter organic_results with
                  | Ok items => items
                  | Raise _ => []
                  end
              | Raise _ => []
              end
          | Raise _ => []
          end
      | Raise _ => []
      end
  | Raise _ => []
  end.

Section FetchedLeads.

Variable sv : services.

(** Every record the fetcher returns was built from one of the organic
    results of the answer. *)
Lemma fetch_leads_ok_items (search_query : str) (w : world) (v : pyval) :
  fst (fetch_leads sv search_query w) = Ok v ->
  exists leads : list pyval,
    v = PList leads /\
    Forall
      (fun lead =>
         exists item,
           In item (organic_results_of sv search_query) /\
           lead_for item lead)
      leads.
Proof.
  unfold fetch_leads, organic_results_of; run_monad.
  destruct (requests_post sv (apify_url sv) (apify_payload search_query))
    as [response|e]; [|discriminate].
  destruct (negb (status_code response =? 200) &&
            negb (status_code response =? 201)); [discriminate|].
  destruct (json response) as [results|e]; [|discriminate].
  destruct (py_truthy results); cbn [negb];
    [|intros [= <-]; exists []; auto].
  destruct (py_item0 results) as [first|e]; [|discriminate].
  destruct (py_get first (lit "organicResults") (PList []))
    as [organic_results|e]; [|discriminate].
  destruct (py_iter organic_results) as [items|e]; [|discriminate].
  destruct (fetch_loop items []) as [leads|e] eqn:Hloop; [|discriminate].
  intros [= <-].
  destruct (fetch_loop_inv _ _ _ Hloop) as [new [-> Hnew]].
  exists new; auto.
Qed.

(** The row [store_leads] builds from a record of the fetcher: [company] is
    read from [organization.name]; [location] is read from
    [organization.location], which the record does not have. *)
Lemma new_lead_of_lead_dict (name title company location link : pyval) :
  new_lead (lead_dict name title company location link)
  = Ok (mkLead name PNone title company PNone).
Proof. reflexivity. Qed.

Lemma lead_for_dict (item lead : pyval) :
  lead_for item lead ->
  exists name title company location link personal_info : pyval,
    py_get item (lit "personalInfo") (PDict []) = Ok personal_info /\
    py_get personal_info (lit "location") PNone = Ok location /\
    lead = lead_dict name title company location link.
Proof.
  intros [link [pi [_ [Hpi Hlead]]]].
  destruct (lead_of_inv item pi link lead Hlead)
    as [nm [tt [co [lo [_ [_ [_ [Hlo ->]]]]]]]].
  exists nm, tt, co, lo, link, pi; auto.
Qed.

Lemma fetch_leads_ok (search_query : str) (w : world) (v : pyval) :
  fst (fetch_leads sv search_query w) = Ok v ->
  exists leads : list pyval,
    v = PList leads /\
    Forall (fun lead => exists item, lead_for item lead) leads.
Proof.
  intros Hv.
  destruct (fetch_leads_result sv search_query w) as [[leads [Hrun Hl]] | Hrun];
    rewrite Hrun in Hv; [|discriminate].
  injection Hv as <-; exists leads; auto.
Qed.

(** The rows that records of the fetcher add to the table have a null
    [email] and a null [location]. *)
Lemma store_fetched_rows (leads : list pyval) (w : world) :
  Forall (fun lead => exists item, lead_for item lead) leads ->
  exists objs : list Lead,
    leads_table (snd (store_leads sv (PList leads) w))
    = leads_table w ++ objs /\
    Forall (fun obj => email obj = PNone /\ location obj = PNone) objs.
Proof.
  intros Hleads.
  destruct (store_leads_table sv (PList leads) w) as [objs [Htable [_ Hobjs]]].
  exists objs; split; [exact Htable|].
  eapply Forall_impl; [|exact (Hobjs leads eq_refl)].
  intros obj [lead [Hin Hobj]].
  rewrite Forall_forall in Hleads.
  destruct (Hleads lead Hin) as [item Hfor].
  destruct (lead_for_dict item lead Hfor)
    as [nm [tt [co [lo [link [pi [_ [_ ->]]]]]]]].
  rewrite new_lead_of_lead_dict in Hobj.
  injection Hobj as <-; auto.
Qed.

End FetchedLeads.

(** C3.  Every record the fetcher returns was built from one of the organic
    results of the answer; its ["organization"] sub-dict has ["name"] as its
    only key, and the location scraped for that result
    ([personalInfo.location] of the result) is kept under the record's own
    key ["location"].  [store_leads] reads the [location] column from
    [organization.location]: it does so for every dict it is given, and for a
    record of the fetcher that key is absent, so the row has a null
    [location] whatever was scraped; and every row a call of [store_leads] on
    the fetched list adds to the table has a null [location]. *)
Theorem fetched_location_never_persisted
    (sv : services) (search_query : str) (w : world) (v : pyval) :
  fst (fetch_leads sv search_query w) = Ok v ->
  exists leads : list pyval,
    v = PList leads /\
    Forall
      (fun lead =>
         exists (item personal_info scraped name title company link : pyval),
           In item (organic_results_of sv search_query) /\
           py_get item (lit "url") (PStr []) = Ok link /\
           py_get item (lit "personalInfo") (PDict []) = Ok personal_info /\
           py_get personal_info (lit "location") PNone = Ok scraped /\
           lead =
             PDict [ (lit "name", name);
                     (lit "title", title);
                     (lit "email", PNone);
                     (lit "organization", PDict [ (lit "name", company) ]);
                     (lit "location", scraped);
                     (lit "linkedin_url", link) ] /\
           new_lead lead = Ok (mkLead name PNone title company PNone))
      leads /\
    (forall (d organization : list (str * pyval)) (obj : Lead),
       dict_get d (lit "organization") = Some (PDict organization) ->
       new_lead (PDict d) = Ok obj ->
       py_get (PDict organization) (lit "location") PNone
       = Ok (location obj)) /\
    (forall (d : list (str * pyval)) (obj : Lead),
       dict_get d (lit "organization") = None ->
       new_lead (PDict d) = Ok obj ->
       location obj = PNone) /\
    forall w1 : world,
      exists objs : list Lead,
        leads_table (snd (store_leads sv v w1)) = leads_table w1 ++ objs /\
        Forall (fun obj => location obj = PNone) objs.
Proof.
  intros Hv.
  destruct (fetch_leads_ok_items sv search_query w v Hv)
    as [leads [-> Hleads]].
  exists leads; split; [reflexivity|]; split; [|split; [|split]].
  - eapply Forall_impl; [|exact Hleads].
    intros lead [item [Hin [link [pi [Hlink [Hpi Hlead]]]]]].
    destruct (lead_of_inv item pi link lead Hlead)
      as [nm [tt [co [lo [_ [_ [_ [Hlo ->]]]]]]]].
    exists item, pi, lo, nm, tt, co, link.
    repeat split; auto.
  - intros d organization obj Horg.
    unfold new_lead; cbn [py_get]; rewrite Horg; cbn [rbind].
    intros [= <-]; reflexivity.
  - intros d obj Horg.
    unfold new_lead; cbn [py_get]; rewrite Horg; cbn [rbind].
    intros [= <-]; reflexivity.
  - intros w1.
    assert (Hfor : Forall (fun lead => exists item, lead_for item lead) leads).
    { eapply Forall_impl; [|exact Hleads].
      intros lead [item [_ H]]; exists item; exact H. }
    destruct (store_fetched_rows sv leads w1 Hfor) as [objs [Htable Hobjs]].
    exists objs; split; [exact Htable|].
    eapply Forall_impl; [|exact Hobjs]; intros obj [_ H]; exact H.
Qed.

(** C9.  Every record the fetcher returns has [None] under ["email"],
    whatever the response held; the row built from it has a null [email];
    and every row a call of [store_leads] on the fetched list adds to the
    table has a null [email]. *)
Theorem fetched_email_always_null
    (sv : services) (search_query : str) (w : world) (v : pyval) :
  fst (fetch_leads sv search_query w) = Ok v ->
  exists leads : list pyval,
    v = PList leads /\
    Forall
      (fun lead =>
         py_get lead (lit "email") (PStr []) = Ok PNone /\
         exists obj : Lead, new_lead lead = Ok obj /\ email obj = PNone)
      leads /\
    forall w1 : world,
      exists objs : list Lead,
        leads_table (snd (store_leads sv v w1)) = leads_table w1 ++ objs /\
        Forall (fun obj => email obj = PNone) objs.
Proof.
  intros Hv.
  destruct (fetch_leads_ok sv search_query w v Hv) as [leads [-> Hleads]].
  exists leads; split; [reflexivity|]; split.
  - eapply Forall_impl; [|exact Hleads].
    intros lead [item Hfor].
    destruct (lead_for_dict item lead Hfor)
      as [nm [tt [co [lo [link [pi [_ [_ ->]]]]]]]].
    split; [reflexivity|].
    eexists; split; [apply new_lead_of_lead_dict | reflexivity].
  - intros w1.
    destruct (store_fetched_rows sv leads w1 Hleads) as [objs [Htable Hobjs]].
    exists objs; split; [exact Htable|].
    eapply Forall_impl; [|exact Hobjs]; intros obj [H _]; exact H.
Qed.

Lemma fetched_location_never_persisted_witness :
  exists objs : list Lead,
    leads_table
      (snd (store_leads (Scenario.happy [Scenario.jane])
              (PList [Scenario.jane_lead]) Scenario.empty_world))
    = objs /\
    Forall (fun obj => location obj = PNone) objs.
Proof.
  destruct (fetched_location_never_persisted
              (Scenario.happy [Scenario.jane]) Scenario.google_query
              Scenario.empty_world (PList [Scenario.jane_lead]) eq_refl)
    as [leads [_ [_ [_ [_ Hstore]]]]].
  exact (Hstore Scenario.empty_world).
Defined.

Lemma fetched_email_always_null_witness :
  exists objs : list Lead,
    leads_table
      (snd (store_leads (Scenario.happy [Scenario.jane])
              (PList [Scenario.jane_lead]) Scenario.empty_world))
    = objs /\
    Forall (fun obj => email obj = PNone) objs.
Proof.
  destruct (fetched_email_always_null
              (Scenario.happy [Scenario.jane]) Scenario.google_query
              Scenario.empty_world (PList [Scenario.jane_lead]) eq_refl)
    as [leads [_ [_ Hstore]]].
  exact (Hstore Scenario.empty_world).
Defined.

(* ================================================================= *)
(** ** The endpoint *)

Definition response_body (search_query : str) (leads_found : Z) : pyval :=
  PDict [ (lit "google_query", PStr search_query);
          (lit "leads_found", PInt leads_found) ].

Section Endpoint.

Variable sv : services.

(** The endpoint is the three steps in sequence, with the check of the
    fetcher's result between the second and the third. *)
Lemma generate_leads_run (query : str) (w : world) :
  generate_leads sv query w =
  match convert_query_to_google_query sv query w with
  | (Raise e, w1) => (Raise e, w1)
  | (Ok search_query, w1) =>
      match fetch_leads sv search_query w1 with
      | (Raise e, w2) => (Raise e, w2)
      | (Ok leads, w2) =>
          if negb (isinstance_list leads)
          then (Raise (HTTPException 500 (lit "Invalid format")), w2)
          else
            match store_leads sv leads w2 with
            | (Raise e, w3) => (Raise e, w3)
            | (Ok _, w3) =>
                match py_len leads with
                | Ok n => (Ok (response_body search_query n), w3)
                | Raise e => (Raise e, w3)
                end
            end
      end
  end.
Proof.
  unfold generate_leads; rewrite bind_run.
  destruct (convert_query_to_google_query sv query w) as [[s|e] w1];
    [|reflexivity].
  rewrite bind_run.
  destruct (fetch_leads sv s w1) as [[leads|e] w2]; [|reflexivity].
  destruct (negb (isinstance_list leads)); [reflexivity|].
  rewrite bind_run.
  destruct (store_leads sv leads w2) as [[[]|e] w3]; [|reflexivity].
  rewrite bind_run; unfold lift, ret.
  destruct (py_len leads); reflexivity.
Qed.

(** Every failure of the endpoint is one of the three reported failures. *)
Lemma generate_leads_result (query : str) (w : world) :
  (exists (search_query : str) (leads : list pyval),
     fst (generate_leads sv query w)
     = Ok (response_body search_query (Z.of_nat (List.length leads)))) \/
  fst (generate_leads sv query w)
    = Raise (HTTPException 500 (lit "Gemini failed")) \/
  fst (generate_leads sv query w) = Raise apify_failure \/
  fst (generate_leads sv query w) = Raise database_failure.
Proof.
  rewrite generate_leads_run.
  destruct (convert_query_result sv query w) as [[s Hs] | He];
    destruct (convert_query_to_google_query sv query w) as [r w1];
    cbn [fst] in *; subst r; [|auto].
  destruct (fetch_leads_result sv s w1) as [[leads [Hl _]] | He];
    destruct (fetch_leads sv s w1) as [r w2];
    cbn [fst] in *; subst r; [|auto].
  cbn [isinstance_list negb].
  rewrite store_leads_run.
  destruct (committed_rows sv (leads_table w2) (PList leads)); cbn; eauto 6.
Qed.

End Endpoint.

(** C10.  The fetcher either raises or returns a list; hence the endpoint
    never takes the branch of its [isinstance] check: it never raises the
    "Invalid format" error. *)
Theorem invalid_format_unreachable
    (sv : services) (query search_query : str) (w : world) :
  ((exists e : exn, fst (fetch_leads sv search_query w) = Raise e) \/
   (exists leads : list pyval,
      fst (fetch_leads sv search_query w) = Ok (PList leads) /\
      isinstance_list (PList leads) = true)) /\
  fst (generate_leads sv query w)
    <> Raise (HTTPException 500 (lit "Invalid format")).
Proof.
  split.
  - destruct (fetch_leads_result sv search_query w) as [[leads [H _]] | H].
    + right; exists leads; auto.
    + left; eexists; exact H.
  - destruct (generate_leads_result sv query w)
      as [[s [leads H]] | [H | [H | H]]]; rewrite H; discriminate.
Qed.

(** C6.  When the scraping service answers with a status that is neither 200
    nor 201, the fetcher raises the service failure, whatever the body: it
    returns no list.  The endpoint then answers 500 and the table is
    unchanged. *)
Theorem fetch_leads_bad_status
    (sv : services) (search_query : str) (w : world) (response : Response) :
  requests_post sv (apify_url sv) (apify_payload search_query)
    = Ok response ->
  status_code response <> 200 ->
  status_code response <> 201 ->
  fst (fetch_leads sv search_query w) = Raise apify_failure /\
  forall (query : str) (w0 : world),
    convert_query_to_google_query sv query w0 = (Ok search_query, w) ->
    fst (generate_leads sv query w0) = Raise apify_failure /\
    http_status (fst (generate_leads sv query w0)) = 500 /\
    leads_table (snd (generate_leads sv query w0)) = leads_table w0.
Proof.
  intros Hpost H200 H201.
  assert (Hrun : fst (fetch_leads sv search_query w) = Raise apify_failure).
  { unfold fetch_leads; run_monad.
    rewrite Hpost.
    apply Z.eqb_neq in H200, H201; rewrite H200, H201; reflexivity. }
  split; [exact Hrun|].
  intros query w0 Hconvert.
  rewrite generate_leads_run, Hconvert.
  pose proof (fetch_leads_world sv search_query w) as Hworld.
  pose proof (convert_query_world sv query w0) as Hw.
  rewrite Hconvert in Hw; cbn [snd] in Hw.
  destruct (fetch_leads sv search_query w) as [r w2].
  cbn [fst snd] in *; subst r w2 w.
  repeat split.
Qed.

Lemma fetch_leads_bad_status_witness :
  fst (fetch_leads Scenario.scraper_down Scenario.google_query
         Scenario.empty_world)
  = Raise apify_failure.
Proof.
  apply (fetch_leads_bad_status Scenario.scraper_down Scenario.google_query
           Scenario.empty_world
           {| status_code := 503;
              json := Ok (Scenario.dataset [Scenario.jane]) |}).
  - reflexivity.
  - discriminate.
  - discriminate.
Defined.



(* ================================================================= *)
(** * Further properties of the code *)

(** Services for the runs below: a model whose call raises, a model that
    answers without text, a scraper whose request raises, one whose body is
    not JSON, and a database that refuses every COMMIT. *)
Module Cases.

Definition network_error : exn := LibraryError (lit "network").




Definition scraper_answers (response : result Response) : services :=
  Scenario.serving (Scenario.model_says (Scenario.google_query ++ nl))
    response (fun _ => true).

Definition scraper_unreachable : services :=
  scraper_answers (Raise network_error).

Definition scraper_not_json : services :=
  scraper_answers
    (Ok {| status_code := 200; json := Raise (LibraryError (lit "json")) |}).

Definition commit_refused (organic_results : list pyval) : services :=
  {| APIFY_TOKEN := lit "apify_api_token";
     generate_content :=
       fun _ _ => Scenario.model_says (Scenario.google_query ++ nl);
     requests_post :=
       fun _ _ => Scenario.scraper_says 200 (Scenario.dataset organic_results);
     insert_ok := fun _ _ _ => true;
     commit_ok := fun _ _ => false |}.

(** A table that already holds a row, and a session left by an earlier
    request. *)
Definition used_world : world :=
  mkWorld [Scenario.member_row] [mkSession [] [] true] [].

End Cases.




(* ================================================================= *)
(** ** More on the lead fetcher *)

(** The items the loop body can process without raising: an object whose
    ["url"] (or the default [""]) supports [in], and, when the test
    succeeds, whose ["personalInfo"] is absent or an object. *)
Definition readable (item : pyval) : bool :=
  match item with
  | PDict d =>
      match
        py_str_in profile_segment
          (match dict_get d (lit "url") with Some v => v | None => PStr [] end)
      with
      | Ok true =>
          match dict_get d (lit "personalInfo") with
          | None | Some (PDict _) => true
          | Some _ => false
          end
      | Ok false => true
      | Raise _ => false
      end
  | _ => false
  end.

(** The first result set of a decoded document, when the document is a
    non-empty array whose first element is an object. *)
Definition first_result_set (results : pyval) : option (list (str * pyval)) :=
  match results with
  | PList (PDict d :: _) => Some d
  | _ => None
  end.

(** [d.get(k)]: the value, or [None]. *)
Definition get_or_none (d : list (str * pyval)) (k : str) : pyval :=
  match dict_get d k with
  | Some v => v
  | None => PNone
  end.

(** The record expected for a profile: every field read with [None] as the
    default, the link as it stands in the result. *)
Definition expected_lead (item : pyval) : pyval :=
  match item with
  | PDict d =>
      let personal_info :=
        match dict_get d (lit "personalInfo") with
        | Some (PDict p) => p
        | _ => []
        end in
      lead_dict (get_or_none d (lit "title"))
        (get_or_none personal_info (lit "jobTitle"))
        (get_or_none personal_info (lit "companyName"))
        (get_or_none personal_info (lit "location"))
        (get_or_none d (lit "url"))
  | _ => PNone
  end.

Section FetcherMore.

Variable sv : services.

Lemma status_guard_passes (response : Response) :
  status_code response = 200 \/ status_code response = 201 ->
  negb (status_code response =? 200) && negb (status_code response =? 201)
  = false.
Proof. intros [-> | ->]; reflexivity. Qed.

(** The loop on a list with an unreadable item raises; on a list of
    readable items it returns. *)
Lemma fetch_loop_readable (items acc : list pyval) :
  if forallb readable items
  then exists new : list pyval, fetch_loop items acc = Ok (acc ++ new)
  else exists e : exn, fetch_loop items acc = Raise e.
Proof.
  revert acc; induction items as [|item rest IH]; intros acc;
    cbn [fetch_loop forallb].
  - exists []; rewrite app_nil_r; reflexivity.
  - destruct item as [| | | | | |d];
      try (cbn [readable andb py_get rbind]; eexists; reflexivity).
    cbn [readable py_get]; unfold lead_of, rbind, profile_segment.
    destruct (py_str_in (lit "linkedin.com/in")
                (match dict_get d (lit "url") with
                 | Some v => v
                 | None => PStr []
                 end)) as [[|]|e]; cbn [andb].
    + destruct (dict_get d (lit "personalInfo")) as [[| | | | | |p]|];
        cbn [andb py_get]; try (eexists; reflexivity).
      * match goal with
        | |- context [fetch_loop rest (acc ++ [?lead])] =>
            specialize (IH (acc ++ [lead]))
        end.
        destruct (forallb readable rest).
        -- destruct IH as [new ->]; eexists (_ :: new).
           rewrite <- app_assoc; reflexivity.
        -- exact IH.
      * match goal with
        | |- context [fetch_loop rest (acc ++ [?lead])] =>
            specialize (IH (acc ++ [lead]))
        end.
        destruct (forallb readable rest).
        -- destruct IH as [new ->]; eexists (_ :: new).
           rewrite <- app_assoc; reflexivity.
        -- exact IH.
    + exact (IH acc).
    + eexists; reflexivity.
Qed.

End FetcherMore.

Section FetcherShape.

Variable sv : services.

Lemma lead_for_expected (item lead : pyval) :
  lead_for item lead ->
  well_shaped item = true ->
  is_profile item = true ->
  lead = expected_lead item.
Proof.
  intros [link [pi [Hlink [Hpi Hlead]]]] Hshape Hprofile.
  destruct item as [| | | | | |d]; try discriminate Hshape.
  cbn [well_shaped is_profile py_get expected_lead] in *.
  destruct (dict_get d (lit "url")) as [[| | | |s| |]|] eqn:Hurl;
    try discriminate Hprofile.
  rewrite Hprofile in Hshape.
  injection Hlink as <-.
  unfold get_or_none; rewrite Hurl.
  destruct (dict_get d (lit "personalInfo")) as [[| | | | | |p]|];
    try discriminate Hshape;
    injection Hpi as <-;
    unfold lead_of in Hlead; cbn [py_get rbind] in Hlead;
    injection Hlead as <-; reflexivity.
Qed.

Lemma leads_expected (items leads : list pyval) :
  Forall2 lead_for items leads ->
  Forall (fun item => well_shaped item = true /\ is_profile item = true)
    items ->
  leads = map expected_lead items.
Proof.
  induction 1 as [|item lead items leads Hfor _ IH]; intros Hall;
    [reflexivity|].
  inversion Hall as [|? ? [Hs Hp] Hrest]; subst.
  cbn [map]; rewrite (lead_for_expected item lead Hfor Hs Hp), (IH Hrest).
  reflexivity.
Qed.

End FetcherShape.

(** X2.  Whatever the outcome, the fetcher sends exactly one POST, to the
    actor's run-sync URL with the configured token appended, with the payload
    [{"queries": search_query, "maxPagesPerQuery": 1}], and touches neither
    the table nor the sessions.  Its only exception is the 500 "Apify request
    failed": the "Apify API failed" of the status guard is raised inside the
    [try] and never reaches the caller. *)
Theorem fetch_leads_request_and_failure
    (sv : services) (search_query : str) (w : world) :
  snd (fetch_leads sv search_query w) =
    mkWorld (leads_table w) (sessions w)
      (trace w ++
       [RequestsPost
          (lit "https://api.apify.com/v2/acts/apify~google-search-scraper/run-sync-get-dataset-items?token="
           ++ APIFY_TOKEN sv)
          (PDict [ (lit "queries", PStr search_query);
                   (lit "maxPagesPerQuery", PInt 1) ])]) /\
  ((exists leads : list pyval,
      fst (fetch_leads sv search_query w) = Ok (PList leads)) \/
   fst (fetch_leads sv search_query w)
   = Raise (HTTPException 500 (lit "Apify request failed"))) /\
  fst (fetch_leads sv search_query w)
  <> Raise (HTTPException 500 (lit "Apify API failed")).
Proof.
  split; [apply fetch_leads_world|].
  destruct (fetch_leads_result sv search_query w) as [[leads [H _]] | H];
    rewrite H; split; try discriminate; eauto.
Qed.

(** X3.  A request that raises (no connection, timeout) and a body that is
    not JSON are both reported as the service failure. *)
Theorem fetch_leads_transport_failure
    (sv : services) (search_query : str) (w : world) :
  (forall e : exn,
     requests_post sv (apify_url sv) (apify_payload search_query) = Raise e ->
     fst (fetch_leads sv search_query w) = Raise apify_failure) /\
  (forall (response : Response) (e : exn),
     requests_post sv (apify_url sv) (apify_payload search_query)
       = Ok response ->
     json response = Raise e ->
     fst (fetch_leads sv search_query w) = Raise apify_failure).
Proof.
  split.
  - intros e Hpost; unfold fetch_leads; run_monad; rewrite Hpost; reflexivity.
  - intros response e Hpost Hjson; unfold fetch_leads; run_monad.
    rewrite Hpost, Hjson.
    destruct (negb (status_code response =? 200) &&
              negb (status_code response =? 201)); reflexivity.
Qed.

Lemma fetch_leads_transport_failure_witness :
  fst (fetch_leads Cases.scraper_unreachable Scenario.google_query
         Scenario.empty_world)
  = Raise apify_failure /\
  fst (fetch_leads Cases.scraper_not_json Scenario.google_query
         Scenario.empty_world)
  = Raise apify_failure.
Proof.
  split.
  - exact (proj1
             (fetch_leads_transport_failure Cases.scraper_unreachable
                Scenario.google_query Scenario.empty_world)
             Cases.network_error eq_refl).
  - exact (proj2
             (fetch_leads_transport_failure Cases.scraper_not_json
                Scenario.google_query Scenario.empty_world)
             {| status_code := 200;
                json := Raise (LibraryError (lit "json")) |}
             (LibraryError (lit "json")) eq_refl eq_refl).
Defined.

(** X4.  With a success status, every falsy document ([null], [false], [0],
    [0.0], [""], [[]], [{}]) gives the empty list, not an error. *)
Theorem fetch_leads_falsy_document
    (sv : services) (search_query : str) (w : world)
    (response : Response) (results : pyval) :
  requests_post sv (apify_url sv) (apify_payload search_query)
    = Ok response ->
  status_code response = 200 \/ status_code response = 201 ->
  json response = Ok results ->
  In results
    [PNone; PBool false; PInt 0; PFloat (S754_zero false);
     PFloat (S754_zero true); PStr []; PList []; PDict []] ->
  fst (fetch_leads sv search_query w) = Ok (PList []).
Proof.
  intros Hpost Hstatus Hjson Hfalsy.
  unfold fetch_leads; run_monad.
  rewrite Hpost, (status_guard_passes response Hstatus), Hjson.
  cbn [In] in Hfalsy.
  repeat (destruct Hfalsy as [<- | Hfalsy]; [reflexivity|]).
  destruct Hfalsy.
Qed.

Lemma fetch_leads_falsy_document_witness :
  fst (fetch_leads
         (Cases.scraper_answers (Scenario.scraper_says 200 (PDict [])))
         Scenario.google_query Scenario.empty_world)
  = Ok (PList []).
Proof.
  apply (fetch_leads_falsy_document
           (Cases.scraper_answers (Scenario.scraper_says 200 (PDict [])))
           Scenario.google_query Scenario.empty_world
           {| status_code := 200; json := Ok (PDict []) |} (PDict [])).
  - reflexivity.
  - left; reflexivity.
  - reflexivity.
  - cbn [In]; do 7 right; left; reflexivity.
Defined.

(** X5.  With a success status, a truthy document that is not an array
    whose first element is an object (an error object, a string, a number, an
    array of arrays) is reported as the service failure. *)
Theorem fetch_leads_unexpected_document
    (sv : services) (search_query : str) (w : world)
    (response : Response) (results : pyval) :
  requests_post sv (apify_url sv) (apify_payload search_query)
    = Ok response ->
  status_code response = 200 \/ status_code response = 201 ->
  json response = Ok results ->
  py_truthy results = true ->
  first_result_set results = None ->
  fst (fetch_leads sv search_query w) = Raise apify_failure.
Proof.
  intros Hpost Hstatus Hjson Htruthy Hfirst.
  unfold fetch_leads; run_monad.
  rewrite Hpost, (status_guard_passes response Hstatus), Hjson, Htruthy.
  cbn [negb].
  destruct results as [|b|z|f|[|c s]|[|[| | | | | |d] l]|d];
    try discriminate Htruthy; try discriminate Hfirst; reflexivity.
Qed.

Lemma fetch_leads_unexpected_document_witness :
  fst (fetch_leads
         (Cases.scraper_answers
            (Scenario.scraper_says 200
               (PDict [ (lit "error", PStr (lit "rate limited")) ])))
         Scenario.google_query Scenario.empty_world)
  = Raise apify_failure.
Proof.
  apply (fetch_leads_unexpected_document
           (Cases.scraper_answers
              (Scenario.scraper_says 200
                 (PDict [ (lit "error", PStr (lit "rate limited")) ])))
           Scenario.google_query Scenario.empty_world
           {| status_code := 200;
              json := Ok (PDict [ (lit "error",
                                   PStr (lit "rate limited")) ]) |}
           (PDict [ (lit "error", PStr (lit "rate limited")) ]));
    reflexivity || (left; reflexivity).
Defined.

(** X6.  The key ["organicResults"] may be absent, but when it is present
    its value must be iterable: with [null], a boolean or a number under it
    the fetcher reports the service failure. *)
Theorem fetch_leads_organic_results_not_iterable
    (sv : services) (search_query : str) (w : world)
    (response : Response) (first : list (str * pyval))
    (rest : list pyval) (organic_results : pyval) :
  requests_post sv (apify_url sv) (apify_payload search_query)
    = Ok response ->
  status_code response = 200 \/ status_code response = 201 ->
  json response = Ok (PList (PDict first :: rest)) ->
  dict_get first (lit "organicResults") = Some organic_results ->
  py_iter organic_results = Raise TypeError ->
  fst (fetch_leads sv search_query w) = Raise apify_failure.
Proof.
  intros Hpost Hstatus Hjson Horganic Hiter.
  rewrite (fetch_leads_first_set sv search_query w response first rest
             Hpost Hstatus Hjson).
  rewrite Horganic; unfold rbind; rewrite Hiter; reflexivity.
Qed.

Lemma fetch_leads_organic_results_not_iterable_witness :
  fst (fetch_leads
         (Cases.scraper_answers
            (Scenario.scraper_says 200
               (PList [PDict [ (lit "organicResults", PNone) ]])))
         Scenario.google_query Scenario.empty_world)
  = Raise apify_failure.
Proof.
  apply (fetch_leads_organic_results_not_iterable
           (Cases.scraper_answers
              (Scenario.scraper_says 200
                 (PList [PDict [ (lit "organicResults", PNone) ]])))
           Scenario.google_query Scenario.empty_world
           {| status_code := 200;
              json := Ok (PList [PDict [ (lit "organicResults", PNone) ]]) |}
           [ (lit "organicResults", PNone) ] [] PNone);
    reflexivity || (left; reflexivity).
Defined.

(** X7.  The fetcher returns all or nothing.  With a success status and a
    first result set that lists organic results, it returns a list when
    every result is one the loop body can process, and it reports the service
    failure as soon as one result, anywhere in the list, is not: records
    built from the results before it are dropped. *)
Theorem fetch_leads_all_items_or_failure
    (sv : services) (search_query : str) (w : world)
    (response : Response) (first : list (str * pyval))
    (rest items : list pyval) :
  requests_post sv (apify_url sv) (apify_payload search_query)
    = Ok response ->
  status_code response = 200 \/ status_code response = 201 ->
  json response = Ok (PList (PDict first :: rest)) ->
  dict_get first (lit "organicResults") = Some (PList items) ->
  (forallb readable items = true ->
   exists leads : list pyval,
     fst (fetch_leads sv search_query w) = Ok (PList leads)) /\
  (forall bad : pyval,
     In bad items -> readable bad = false ->
     fst (fetch_leads sv search_query w) = Raise apify_failure).
Proof.
  intros Hpost Hstatus Hjson Horganic.
  rewrite (fetch_leads_first_set sv search_query w response first rest
             Hpost Hstatus Hjson).
  rewrite Horganic; cbn [py_iter rbind].
  pose proof (fetch_loop_readable items []) as Hloop.
  split.
  - intros Hall; rewrite Hall in Hloop.
    destruct Hloop as [new ->]; eexists; reflexivity.
  - intros bad Hin Hbad.
    assert (Hnot : forallb readable items = false).
    { destruct (forallb readable items) eqn:Hall; [|reflexivity].
      rewrite forallb_forall in Hall; rewrite (Hall bad Hin) in Hbad.
      discriminate Hbad. }
    rewrite Hnot in Hloop; destruct Hloop as [e ->]; reflexivity.
Qed.

Lemma fetch_leads_all_items_or_failure_witness :
  fst (fetch_leads (Scenario.happy [Scenario.jane; Scenario.anonymous])
         Scenario.google_query Scenario.empty_world)
  = Raise apify_failure.
Proof.
  apply (proj2
           (fetch_leads_all_items_or_failure
              (Scenario.happy [Scenario.jane; Scenario.anonymous])
              Scenario.google_query Scenario.empty_world
              {| status_code := 200;
                 json := Ok (Scenario.dataset
                               [Scenario.jane; Scenario.anonymous]) |}
              (Scenario.result_set [Scenario.jane; Scenario.anonymous])
              [] [Scenario.jane; Scenario.anonymous]
              eq_refl (or_introl eq_refl) eq_refl eq_refl)
           Scenario.anonymous).
  - right; left; reflexivity.
  - reflexivity.
Defined.

(** X8.  On results of the readable shape, the list returned is exactly the
    profiles, in order, each mapped to the record whose [name] is the
    result's ["title"], whose [title], [organization.name] and [location] are
    [jobTitle], [companyName] and [location] of its ["personalInfo"], whose
    [linkedin_url] is the result's ["url"] unchanged, and where every field
    that is missing in the result is [None]. *)
Theorem fetch_leads_records
    (sv : services) (search_query : str) (w : world)
    (response : Response) (first : list (str * pyval))
    (rest items : list pyval) :
  requests_post sv (apify_url sv) (apify_payload search_query)
    = Ok response ->
  status_code response = 200 \/ status_code response = 201 ->
  json response = Ok (PList (PDict first :: rest)) ->
  dict_get first (lit "organicResults") = Some (PList items) ->
  forallb well_shaped items = true ->
  fst (fetch_leads sv search_query w)
  = Ok (PList (map expected_lead (filter is_profile items))).
Proof.
  intros Hpost Hstatus Hjson Horganic Hshape.
  rewrite (fetch_leads_first_set sv search_query w response first rest
             Hpost Hstatus Hjson).
  rewrite Horganic; cbn [py_iter rbind].
  destruct (fetch_loop_well_shaped items [] Hshape) as [leads [-> Hleads]].
  cbn [app]; rewrite (leads_expected _ _ Hleads); [reflexivity|].
  apply Forall_forall; intros item Hin.
  apply filter_In in Hin; destruct Hin as [Hin Hp].
  rewrite forallb_forall in Hshape; auto.
Qed.

Lemma fetch_leads_records_witness :
  fst (fetch_leads
         (Scenario.happy
            [Scenario.company_page;
             PDict [ (lit "url",
                      PStr (lit "https://in.linkedin.com/in/bare")) ];
             Scenario.jane])
         Scenario.google_query Scenario.empty_world)
  = Ok (PList
          [ lead_dict PNone PNone PNone PNone
              (PStr (lit "https://in.linkedin.com/in/bare"));
            Scenario.jane_lead ]).
Proof.
  apply (fetch_leads_records
           (Scenario.happy
              [Scenario.company_page;
               PDict [ (lit "url",
                        PStr (lit "https://in.linkedin.com/in/bare")) ];
               Scenario.jane])
           Scenario.google_query Scenario.empty_world
           {| status_code := 200;
              json := Ok (Scenario.dataset
                            [Scenario.company_page;
                             PDict [ (lit "url",
                                      PStr (lit "https://in.linkedin.com/in/bare")) ];
                             Scenario.jane]) |}
           (Scenario.result_set
              [Scenario.company_page;
               PDict [ (lit "url",
                        PStr (lit "https://in.linkedin.com/in/bare")) ];
               Scenario.jane])
           []
           [Scenario.company_page;
            PDict [ (lit "url",
                     PStr (lit "https://in.linkedin.com/in/bare")) ];
            Scenario.jane]);
    reflexivity || (left; reflexivity).
Defined.

(** X9.  Only the first result set is read: two answers with a success
    status whose documents start with the same result set give the same
    result, whatever follows it in the array and whatever the query and the
    token were. *)
Theorem fetch_leads_reads_first_set_only
    (sv sv' : services) (search_query search_query' : str) (w w' : world)
    (response response' : Response) (first : list (str * pyval))
    (rest rest' : list pyval) :
  requests_post sv (apify_url sv) (apify_payload search_query)
    = Ok response ->
  requests_post sv' (apify_url sv') (apify_payload search_query')
    = Ok response' ->
  status_code response = 200 \/ status_code response = 201 ->
  status_code response' = 200 \/ status_code response' = 201 ->
  json response = Ok (PList (PDict first :: rest)) ->
  json response' = Ok (PList (PDict first :: rest')) ->
  fst (fetch_leads sv search_query w) = fst (fetch_leads sv' search_query' w').
Proof.
  intros Hpost Hpost' Hstatus Hstatus' Hjson Hjson'.
  rewrite (fetch_leads_first_set sv search_query w response first rest
             Hpost Hstatus Hjson).
  rewrite (fetch_leads_first_set sv' search_query' w' response' first rest'
             Hpost' Hstatus' Hjson').
  reflexivity.
Qed.

Lemma fetch_leads_reads_first_set_only_witness :
  fst (fetch_leads (Scenario.happy [Scenario.jane]) Scenario.google_query
         Scenario.empty_world)
  = fst (fetch_leads
           (Cases.scraper_answers
              (Scenario.scraper_says 201
                 (PList [ PDict (Scenario.result_set [Scenario.jane]);
                          PDict (Scenario.result_set
                                   [Scenario.anonymous]) ])))
           Scenario.ceo_in_mumbai Cases.used_world).
Proof.
  apply (fetch_leads_reads_first_set_only
           (Scenario.happy [Scenario.jane])
           (Cases.scraper_answers
              (Scenario.scraper_says 201
                 (PList [ PDict (Scenario.result_set [Scenario.jane]);
                          PDict (Scenario.result_set
                                   [Scenario.anonymous]) ])))
           Scenario.google_query Scenario.ceo_in_mumbai
           Scenario.empty_world Cases.used_world
           {| status_code := 200;
              json := Ok (Scenario.dataset [Scenario.jane]) |}
           {| status_code := 201;
              json := Ok (PList [ PDict (Scenario.result_set [Scenario.jane]);
                                  PDict (Scenario.result_set
                                           [Scenario.anonymous]) ]) |}
           (Scenario.result_set [Scenario.jane]) []
           [ PDict (Scenario.result_set [Scenario.anonymous]) ]);
    reflexivity || (left; reflexivity) || (right; reflexivity).
Defined.

(* ================================================================= *)
(** ** More on the lead store *)

(** The elements [store_leads] can turn into a row: a dict whose
    ["organization"] is absent or a dict. *)
Definition storable (lead : pyval) : bool :=
  match lead with
  | PDict d =>
      match dict_get d (lit "organization") with
      | None | Some (PDict _) => true
      | Some _ => false
      end
  | _ => false
  end.

(** A database that accepts every INSERT and every COMMIT. *)
Definition permissive (sv : services) : Prop :=
  (forall table txn obj, insert_ok sv table txn obj = true) /\
  (forall table txn, commit_ok sv table txn = true).

Section StoreMore.

Variable sv : services.

Lemma new_lead_storable (lead : pyval) :
  if storable lead
  then exists obj : Lead, new_lead lead = Ok obj
  else new_lead lead = Raise AttributeError.
Proof.
  destruct lead as [| | | | | |d]; try reflexivity.
  cbn [storable]; unfold new_lead; cbn [py_get rbind].
  destruct (dict_get d (lit "organization")) as [[| | | | | |o]|];
    try reflexivity; eexists; reflexivity.
Qed.

Lemma new_leads_unstorable (items : list pyval) (bad : pyval) :
  In bad items -> storable bad = false ->
  new_leads items = Raise AttributeError.
Proof.
  induction items as [|lead rest IH]; intros Hin Hbad; [destruct Hin|].
  cbn [new_leads]; unfold rbind.
  pose proof (new_lead_storable lead) as Hlead.
  destruct (storable lead) eqn:Hs.
  - destruct Hlead as [obj ->].
    destruct Hin as [-> | Hin]; [congruence|].
    rewrite (IH Hin Hbad); reflexivity.
  - rewrite Hlead; reflexivity.
Qed.

End StoreMore.

(** X10.  When every element of [leads] can be turned into a row and the
    database accepts every INSERT and the COMMIT, [store_leads] returns and
    the table is the old table followed by one row per element, in the order
    of [leads]; the call adds one closed session and makes no outbound call.
    (With an empty [leads] this is a commit of nothing.) *)
Theorem store_leads_commits_in_order
    (sv : services) (leads : pyval) (w : world)
    (items : list pyval) (objs : list Lead) :
  py_iter leads = Ok items ->
  Forall2 (fun lead obj => new_lead lead = Ok obj) items objs ->
  (forall pre obj post,
     objs = pre ++ obj :: post ->
     insert_ok sv (leads_table w) pre obj = true) ->
  commit_ok sv (leads_table w) objs = true ->
  store_leads sv leads w
  = (Ok tt,
     mkWorld (leads_table w ++ objs)
       (sessions w ++ [mkSession [] [] true]) (trace w)).
Proof.
  intros Hiter Hobjs Hinsert Hcommit.
  rewrite store_leads_run; unfold committed_rows.
  apply new_leads_Forall2 in Hobjs.
  rewrite Hiter, Hobjs, (flush_all_accepted sv (leads_table w) [] objs Hinsert).
  cbn [snd app andb]; rewrite Hcommit; reflexivity.
Qed.

Lemma store_leads_commits_in_order_witness :
  store_leads (Scenario.happy [])
    (PList [Scenario.member_lead; Scenario.jane_lead]) Cases.used_world
  = (Ok tt,
     mkWorld [Scenario.member_row; Scenario.member_row; Scenario.jane_row]
       [mkSession [] [] true; mkSession [] [] true] []).
Proof.
  apply (store_leads_commits_in_order (Scenario.happy [])
           (PList [Scenario.member_lead; Scenario.jane_lead])
           Cases.used_world
           [Scenario.member_lead; Scenario.jane_lead]
           [Scenario.member_row; Scenario.jane_row]).
  - reflexivity.
  - constructor; [reflexivity|].
    constructor; [reflexivity|].
    constructor.
  - reflexivity.
  - reflexivity.
Defined.

(** X11.  A refused COMMIT, after INSERTs that all went through, is a
    database error like a refused INSERT: nothing is added to the table. *)
Theorem store_leads_commit_refused
    (sv : services) (leads : pyval) (w : world)
    (items : list pyval) (objs : list Lead) :
  py_iter leads = Ok items ->
  Forall2 (fun lead obj => new_lead lead = Ok obj) items objs ->
  commit_ok sv (leads_table w) objs = false ->
  store_leads sv leads w
  = (Raise database_failure,
     mkWorld (leads_table w) (sessions w ++ [mkSession [] [] true])
       (trace w)).
Proof.
  intros Hiter Hobjs Hcommit.
  rewrite store_leads_run; unfold committed_rows.
  apply new_leads_Forall2 in Hobjs.
  rewrite Hiter, Hobjs, Hcommit, andb_false_r; reflexivity.
Qed.

Lemma store_leads_commit_refused_witness :
  store_leads (Cases.commit_refused []) (PList [Scenario.jane_lead])
    Cases.used_world
  = (Raise database_failure,
     mkWorld [Scenario.member_row]
       [mkSession [] [] true; mkSession [] [] true] []).
Proof.
  apply (store_leads_commit_refused (Cases.commit_refused [])
           (PList [Scenario.jane_lead]) Cases.used_world
           [Scenario.jane_lead] [Scenario.jane_row]).
  - reflexivity.
  - constructor; [reflexivity | constructor].
  - reflexivity.
Defined.

(** X12.  A batch the store cannot read is a database error that persists
    nothing, before the database is asked anything: an argument that is not
    iterable, and a batch in which one element, anywhere, is not a dict or
    has an ["organization"] that is present but not a dict (e.g. [None]). *)
Theorem store_leads_unreadable_batch
    (sv : services) (leads : pyval) (w : world) :
  (py_iter leads = Raise TypeError ->
   store_leads sv leads w
   = (Raise database_failure,
      mkWorld (leads_table w) (sessions w ++ [mkSession [] [] true])
        (trace w))) /\
  (forall (items : list pyval) (bad : pyval),
     py_iter leads = Ok items ->
     In bad items -> storable bad = false ->
     store_leads sv leads w
     = (Raise database_failure,
        mkWorld (leads_table w) (sessions w ++ [mkSession [] [] true])
          (trace w))).
Proof.
  split.
  - intros Hiter; rewrite store_leads_run; unfold committed_rows.
    rewrite Hiter; reflexivity.
  - intros items bad Hiter Hin Hbad.
    rewrite store_leads_run; unfold committed_rows.
    rewrite Hiter, (new_leads_unstorable items bad Hin Hbad); reflexivity.
Qed.

Lemma store_leads_unreadable_batch_witness :
  store_leads (Scenario.happy [])
    (PList [Scenario.jane_lead;
            PDict [ (lit "name", PStr (lit "Bob"));
                    (lit "organization", PNone) ]])
    Scenario.empty_world
  = (Raise database_failure,
     mkWorld [] [mkSession [] [] true] []).
Proof.
  apply (proj2
           (store_leads_unreadable_batch (Scenario.happy [])
              (PList [Scenario.jane_lead;
                      PDict [ (lit "name", PStr (lit "Bob"));
                              (lit "organization", PNone) ]])
              Scenario.empty_world)
           [Scenario.jane_lead;
            PDict [ (lit "name", PStr (lit "Bob"));
                    (lit "organization", PNone) ]]
           (PDict [ (lit "name", PStr (lit "Bob"));
                    (lit "organization", PNone) ])).
  - reflexivity.
  - right; left; reflexivity.
  - reflexivity.
Defined.

(** X13.  Calls of [store_leads] compose by appending: on a database that
    accepts everything, two calls in a row leave the table extended by the
    rows of the first batch followed by the rows of the second, each call with
    a session of its own.  Nothing is deduplicated: storing one batch twice
    stores its rows twice. *)
Theorem store_leads_twice_appends
    (sv : services) (leads leads' : pyval) (w : world)
    (items items' : list pyval) (objs objs' : list Lead) :
  permissive sv ->
  py_iter leads = Ok items ->
  Forall2 (fun lead obj => new_lead lead = Ok obj) items objs ->
  py_iter leads' = Ok items' ->
  Forall2 (fun lead obj => new_lead lead = Ok obj) items' objs' ->
  snd (store_leads sv leads' (snd (store_leads sv leads w)))
  = mkWorld (leads_table w ++ objs ++ objs')
      (sessions w ++ [mkSession [] [] true; mkSession [] [] true])
      (trace w).
Proof.
  intros [Hinsert Hcommit] Hiter Hobjs Hiter' Hobjs'.
  apply new_leads_Forall2 in Hobjs, Hobjs'.
  rewrite !store_leads_run; unfold committed_rows.
  rewrite Hiter, Hobjs, flush_all_accepted, Hcommit
    by (intros; apply Hinsert).
  cbn [snd andb leads_table sessions trace].
  rewrite Hiter', Hobjs', flush_all_accepted, Hcommit
    by (intros; apply Hinsert).
  cbn [snd andb]; rewrite <- !app_assoc; reflexivity.
Qed.

Lemma store_leads_twice_appends_witness :
  snd (store_leads (Scenario.happy []) (PList [Scenario.jane_lead])
         (snd (store_leads (Scenario.happy []) (PList [Scenario.jane_lead])
                 Scenario.empty_world)))
  = mkWorld [Scenario.jane_row; Scenario.jane_row]
      [mkSession [] [] true; mkSession [] [] true] [].
Proof.
  apply (store_leads_twice_appends (Scenario.happy [])
           (PList [Scenario.jane_lead]) (PList [Scenario.jane_lead])
           Scenario.empty_world
           [Scenario.jane_lead] [Scenario.jane_lead]
           [Scenario.jane_row] [Scenario.jane_row]).
  - split; reflexivity.
  - reflexivity.
  - constructor; [reflexivity | constructor].
  - reflexivity.
  - constructor; [reflexivity | constructor].
Defined.

(* ================================================================= *)
(** ** More on the endpoint *)

Section EndpointMore.

Variable sv : services.

Lemma committed_rows_list (table : list Lead) (leads : list pyval)
    (objs : list Lead) :
  committed_rows sv table (PList leads) = Some objs ->
  Forall2 (fun lead obj => new_lead lead = Ok obj) leads objs.
Proof.
  unfold committed_rows; cbn [py_iter].
  destruct (new_leads leads) as [objs'|e] eqn:Hobjs; [|discriminate].
  destruct (snd (flush sv table [] objs') && commit_ok sv table objs');
    [|discriminate].
  intros [= <-]; apply new_leads_Forall2; exact Hobjs.
Qed.

(** The world after a request, stage by stage. *)
Lemma generate_leads_stages (query : str) (w : world) :
  let called := GenerateContent gemini_model (prompt query) in
  (fst (generate_leads sv query w) = Raise gemini_failure /\
   fst (convert_query_to_google_query sv query w) = Raise gemini_failure /\
   snd (generate_leads sv query w)
   = mkWorld (leads_table w) (sessions w) (trace w ++ [called])) \/
  (exists s : str,
     fst (convert_query_to_google_query sv query w) = Ok s /\
     let posted := RequestsPost (apify_url sv) (apify_payload s) in
     (fst (generate_leads sv query w) = Raise apify_failure /\
      snd (generate_leads sv query w)
      = mkWorld (leads_table w) (sessions w)
          (trace w ++ [called; posted])) \/
     (fst (generate_leads sv query w) = Raise database_failure /\
      snd (generate_leads sv query w)
      = mkWorld (leads_table w) (sessions w ++ [session_closed])
          (trace w ++ [called; posted])) \/
     (exists objs : list Lead,
        fst (generate_leads sv query w)
        = Ok (response_body s (Z.of_nat (List.length objs))) /\
        snd (generate_leads sv query w)
        = mkWorld (leads_table w ++ objs) (sessions w ++ [session_closed])
            (trace w ++ [called; posted]))).
Proof.
  cbv zeta; rewrite generate_leads_run.
  pose proof (convert_query_world sv query w) as Hw1.
  destruct (convert_query_result sv query w) as [[s Hs] | He];
    destruct (convert_query_to_google_query sv query w) as [r w1];
    cbn [fst snd] in *; subst r w1; [|left; auto].
  right; exists s; split; [reflexivity|].
  match goal with
  | |- context [fetch_leads sv s ?w1] =>
      pose proof (fetch_leads_world sv s w1) as Hw2;
      destruct (fetch_leads_result sv s w1) as [[leads [Hl _]] | He];
      destruct (fetch_leads sv s w1) as [r w2]
  end;
    cbn [fst snd leads_table sessions trace] in *; subst r w2;
    rewrite <- app_assoc; cbn [app]; [|left; auto].
  right; cbn [isinstance_list negb].
  rewrite store_leads_run; cbn [leads_table sessions trace].
  destruct (committed_rows sv (leads_table w) (PList leads)) as [objs|] eqn:Hc;
    [|left; auto].
  right; exists objs; cbn [py_len fst snd].
  apply committed_rows_list, Forall2_length in Hc; rewrite Hc; auto.
Qed.

End EndpointMore.

(** X14.  A request either succeeds, and then [leads_found] in the answer is
    exactly the number of rows it added to the table, or it is answered 500
    and the table is what it was: a failed request persists nothing, and
    every failure status is 500. *)
Theorem generate_leads_found_equals_stored
    (sv : services) (query : str) (w : world) :
  (exists (search_query : str) (objs : list Lead),
     fst (generate_leads sv query w)
     = Ok (response_body search_query (Z.of_nat (List.length objs))) /\
     http_status (fst (generate_leads sv query w)) = 200 /\
     leads_table (snd (generate_leads sv query w)) = leads_table w ++ objs) \/
  (http_status (fst (generate_leads sv query w)) = 500 /\
   leads_table (snd (generate_leads sv query w)) = leads_table w).
Proof.
  destruct (generate_leads_stages sv query w)
    as [[Hr [_ Hw]]
       | [s [_ [[Hr Hw] | [[Hr Hw] | [objs [Hr Hw]]]]]]];
    rewrite Hr, Hw; cbn [leads_table]; auto.
  left; exists s, objs; auto.
Qed.





(* ================================================================= *)
(** ** From a scraper answer to the rows of the table *)






(* ================================================================= *)
(** ** Process start: importing the module *)

Module Startup.

(** The process environment, after [load_dotenv()], as its bindings. *)
Definition environ : Type := list (str * str).

(** [os.getenv(name)]: the value, or [None]. *)
Fixpoint os_getenv (env : environ) (name : str) : pyval :=
  match env with
  | [] => PNone
  | (k, v) :: env' => if PyStr.eqb k name then PStr v else os_getenv env' name
  end.

(** The three module globals. *)
Record settings : Type := mkSettings {
  GEMINI_API_KEY : pyval;
  APIFY_TOKEN : pyval;
  DATABASE_URL : pyval
}.

(** The library calls the module makes at import after the checks: the
    model client is built from the key, the engine from the connection
    string, and [create_all] connects to the database of that engine.  Each
    may raise. *)
Record libraries : Type := {
  genai_Client : pyval -> result unit;
  create_engine : pyval -> result unit;
  create_all : pyval -> result unit
}.

(** Importing the module goes through, or stops at one of the three
    [raise Exception(message)], or stops at an exception of a library. *)
Inductive outcome : Type :=
| Imported (globals : settings)
| Aborted (message : str)
| Failed (e : exn).

(** The module body in order: the settings and their checks, the client,
    the engine, the table.  The definitions that follow ([sessionmaker],
    the classes, the application object and the functions) only bind
    names. *)
Definition import_main (env : environ) (libs : libraries) : outcome :=
  let GEMINI_API_KEY := os_getenv env (lit "GEMINI_API_KEY") in
  let APIFY_TOKEN := os_getenv env (lit "APIFY_API_TOKEN") in
  let DATABASE_URL := os_getenv env (lit "DATABASE_URL") in
  if negb (py_truthy GEMINI_API_KEY)
  then Aborted (lit "GEMINI_API_KEY not found in .env")
  else if negb (py_truthy APIFY_TOKEN)
  then Aborted (lit "APIFY_API_TOKEN not found in .env")
  else if negb (py_truthy DATABASE_URL)
  then Aborted (lit "DATABASE_URL not found in .env")
  else
    match genai_Client libs GEMINI_API_KEY with
    | Raise e => Failed e
    | Ok _ =>
        match create_engine libs DATABASE_URL with
        | Raise e => Failed e
        | Ok _ =>
            match create_all libs DATABASE_URL with
            | Raise e => Failed e
            | Ok _ =>
                Imported (mkSettings GEMINI_API_KEY APIFY_TOKEN DATABASE_URL)
            end
        end
    end.

(** A variable is usable when it is bound to a non-empty string. *)
Definition usable (env : environ) (name : str) : Prop :=
  exists v : str, v <> [] /\ os_getenv env name = PStr v.

Lemma os_getenv_value (env : environ) (name : str) :
  os_getenv env name = PNone \/ exists v, os_getenv env name = PStr v.
Proof.
  induction env as [|[k v] env IH]; cbn [os_getenv]; [left; reflexivity|].
  destruct (PyStr.eqb k name); [right; exists v; reflexivity | exact IH].
Qed.

Lemma truthy_usable (env : environ) (name : str) :
  py_truthy (os_getenv env name) = true <-> usable env name.
Proof.
  unfold usable.
  destruct (os_getenv_value env name) as [-> | [v ->]].
  - split; [discriminate | intros [v [_ H]]; discriminate H].
  - destruct v as [|c v]; cbn [py_truthy].
    + split; [discriminate | intros [v' [Hv [= <-]]]; congruence].
    + split; [intros _; exists (c :: v); split; [discriminate|reflexivity]
             | reflexivity].
Qed.

Definition example_env : environ :=
  [ (lit "GEMINI_API_KEY", lit "g-key");
    (lit "APIFY_API_TOKEN", []);
    (lit "DATABASE_URL", lit "sqlite:///leads.db") ].

Definition complete_env : environ :=
  [ (lit "GEMINI_API_KEY", lit "g-key");
    (lit "APIFY_API_TOKEN", lit "apify_api_token");
    (lit "DATABASE_URL", lit "x") ].

(** Libraries that work, and libraries whose engine refuses the connection
    string. *)
Definition working : libraries :=
  {| genai_Client := fun _ => Ok tt;
     create_engine := fun _ => Ok tt;
     create_all := fun _ => Ok tt |}.

Definition engine_refuses : libraries :=
  {| genai_Client := fun _ => Ok tt;
     create_engine := fun _ => Raise (LibraryError (lit "sqlalchemy"));
     create_all := fun _ => Ok tt |}.

End Startup.

(** X19.  The import of the module goes through exactly when
    [GEMINI_API_KEY], [APIFY_API_TOKEN] and [DATABASE_URL] are all bound to
    non-empty strings (a variable set to the empty string counts as missing)
    and the client, the engine and the table creation all succeed; the
    globals then hold the values of the three variables.  When a variable is
    missing, the import stops with the message of the first missing one, in
    that order, before any library is called: whatever the libraries would
    do.  When the three are set, an exception of a library stops the
    import. *)
Theorem startup_requires_all_settings
    (env : Startup.environ) (libs : Startup.libraries) :
  (forall globals : Startup.settings,
     Startup.import_main env libs = Startup.Imported globals <->
     Startup.usable env (lit "GEMINI_API_KEY") /\
     Startup.usable env (lit "APIFY_API_TOKEN") /\
     Startup.usable env (lit "DATABASE_URL") /\
     Startup.genai_Client libs
       (Startup.os_getenv env (lit "GEMINI_API_KEY")) = Ok tt /\
     Startup.create_engine libs
       (Startup.os_getenv env (lit "DATABASE_URL")) = Ok tt /\
     Startup.create_all libs
       (Startup.os_getenv env (lit "DATABASE_URL")) = Ok tt /\
     globals =
       Startup.mkSettings
         (Startup.os_getenv env (lit "GEMINI_API_KEY"))
         (Startup.os_getenv env (lit "APIFY_API_TOKEN"))
         (Startup.os_getenv env (lit "DATABASE_URL"))) /\
  (~ Startup.usable env (lit "GEMINI_API_KEY") ->
   Startup.import_main env libs
   = Startup.Aborted (lit "GEMINI_API_KEY not found in .env")) /\
  (Startup.usable env (lit "GEMINI_API_KEY") ->
   ~ Startup.usable env (lit "APIFY_API_TOKEN") ->
   Startup.import_main env libs
   = Startup.Aborted (lit "APIFY_API_TOKEN not found in .env")) /\
  (Startup.usable env (lit "GEMINI_API_KEY") ->
   Startup.usable env (lit "APIFY_API_TOKEN") ->
   ~ Startup.usable env (lit "DATABASE_URL") ->
   Startup.import_main env libs
   = Startup.Aborted (lit "DATABASE_URL not found in .env")) /\
  (forall e : exn,
     Startup.usable env (lit "GEMINI_API_KEY") ->
     Startup.usable env (lit "APIFY_API_TOKEN") ->
     Startup.usable env (lit "DATABASE_URL") ->
     Startup.genai_Client libs
       (Startup.os_getenv env (lit "GEMINI_API_KEY")) = Raise e \/
     Startup.genai_Client libs
       (Startup.os_getenv env (lit "GEMINI_API_KEY")) = Ok tt /\
     (Startup.create_engine libs
        (Startup.os_getenv env (lit "DATABASE_URL")) = Raise e \/
      Startup.create_engine libs
        (Startup.os_getenv env (lit "DATABASE_URL")) = Ok tt /\
      Startup.create_all libs
        (Startup.os_getenv env (lit "DATABASE_URL")) = Raise e) ->
     Startup.import_main env libs = Startup.Failed e).
Proof.
  unfold Startup.import_main.
  pose proof (Startup.truthy_usable env (lit "GEMINI_API_KEY")) as HG.
  pose proof (Startup.truthy_usable env (lit "APIFY_API_TOKEN")) as HA.
  pose proof (Startup.truthy_usable env (lit "DATABASE_URL")) as HD.
  destruct (py_truthy (Startup.os_getenv env (lit "GEMINI_API_KEY")));
    destruct (py_truthy (Startup.os_getenv env (lit "APIFY_API_TOKEN")));
    destruct (py_truthy (Startup.os_getenv env (lit "DATABASE_URL")));
    cbn [negb];
    try (split;
         [ intros globals; split;
           [ intros H; discriminate H
           | intros [H1 [H2 [H3 _]]]; exfalso;
             intuition discriminate ]
         | intuition (try discriminate; try reflexivity) ]).
  destruct (Startup.genai_Client libs _) as [[]|e1];
    [destruct (Startup.create_engine libs _) as [[]|e2];
     [destruct (Startup.create_all libs _) as [[]|e3]|]|];
    (split;
     [ intros globals; split;
       [ intros H; try discriminate H; injection H as <-;
         intuition reflexivity
       | intros [_ [_ [_ [H1 [H2 [H3 ->]]]]]];
         try discriminate H1; try discriminate H2; try discriminate H3;
         reflexivity ]
     | repeat split; try (intros; exfalso; intuition discriminate);
       intros e _ _ _ H;
       repeat match goal with
              | H : _ \/ _ |- _ => destruct H
              | H : _ /\ _ |- _ => destruct H
              end;
       try discriminate; congruence ]).
Qed.

Lemma startup_requires_all_settings_witness :
  Startup.import_main Startup.example_env Startup.working
  = Startup.Aborted (lit "APIFY_API_TOKEN not found in .env") /\
  Startup.import_main Startup.complete_env Startup.engine_refuses
  = Startup.Failed (LibraryError (lit "sqlalchemy")).
Proof.
  split.
  - apply (proj1 (proj2 (proj2
             (startup_requires_all_settings Startup.example_env
                Startup.working)))).
    + exists (lit "g-key"); split; [discriminate | reflexivity].
    + intros [v [Hv H]]; apply Hv; injection H as <-; reflexivity.
  - apply (proj2 (proj2 (proj2 (proj2
             (startup_requires_all_settings Startup.complete_env
                Startup.engine_refuses))))).
    + exists (lit "g-key"); split; [discriminate | reflexivity].
    + exists (lit "apify_api_token"); split; [discriminate | reflexivity].
    + exists (lit "x"); split; [discriminate | reflexivity].
    + right; split; [reflexivity | left; reflexivity].
Defined.
